(** * Page-load benchmark scripts: a shallow embedding

    The repository holds four variants of one measurement script:
    - [JsonRun]   : the variant writing [metrics-<date>.json] from [pages.json];
    - [CsvRun]    : the variant writing [metrics-<date>.csv] from [./datasets];
    - [Averages]  : the variant writing [performance_metrics_combined_averages];
    - [Tries]     : the variant writing [performance_metrics_individual_tries].

    The browser engine is outside the repository.  What it delivers to the
    scripts (responses, navigation outcome, anchors, timings) is data here;
    what the scripts compute from it is translated function by function. *)

From Stdlib Require Import ZArith QArith Qround Qabs Lqa String Ascii List Bool Lia.
From Stdlib Require DecimalString DecimalNat.
From stdpp Require Import gmap strings.
Import ListNotations.

Local Open Scope Z_scope.
Local Open Scope string_scope.

(** ** JavaScript values, exceptions and string methods *)
Module JS.

(** A thrown [Error]: the two properties the scripts read. *)
Record error := mkError { name : string; message : string }.

(** Completion of an evaluation: a value, or a thrown error. *)
Inductive completion (A : Type) :=
| Normal (a : A)
| Thrown (e : error).
Arguments Normal {A} a.
Arguments Thrown {A} e.

(** Statements of a [try] block: they read and write the variables the
    closure captures (the state [S]) and may throw. *)
Definition M (S A : Type) : Type := S -> completion A * S.

Definition ret {S A} (a : A) : M S A := fun s => (Normal a, s).
Definition bind {S A B} (c : M S A) (k : A -> M S B) : M S B :=
  fun s => match c s with
           | (Normal a, s') => k a s'
           | (Thrown e, s') => (Thrown e, s')
           end.
Definition throw {S A} (e : error) : M S A := fun s => (Thrown e, s).
Definition get {S} : M S S := fun s => (Normal s, s).
Definition put {S} (s : S) : M S unit := fun _ => (Normal tt, s).
Definition modify {S} (f : S -> S) : M S unit := fun s => (Normal tt, f s).
Definition lift {S A} (c : completion A) : M S A := fun s => (c, s).

(** [try { c } catch (e) { h e }] *)
Definition try_catch {S A} (c : M S A) (h : error -> M S A) : M S A :=
  fun s => match c s with
           | (Normal a, s') => (Normal a, s')
           | (Thrown e, s') => h e s'
           end.

(** The same for code that captures no variable. *)
Definition and_then {A B} (c : completion A) (k : A -> completion B) : completion B :=
  match c with
  | Normal a => k a
  | Thrown e => Thrown e
  end.

(** [arr[i]] followed by a property access: reading a property of
    [undefined] throws a [TypeError]. *)
Definition at_index {A} (arr : list A) (i : nat) : completion A :=
  match nth_error arr i with
  | Some a => Normal a
  | None => Thrown (mkError "TypeError" "Cannot read properties of undefined")
  end.

(** Integer-valued numbers (byte counts, lengths) are kept exact in [Z];
    [NaN] is what [parseInt] yields on a string without leading digits. *)
Inductive number :=
| Num (z : Z)
| NaN.

Definition add (a b : number) : number :=
  match a, b with
  | Num x, Num y => Num (x + y)
  | _, _ => NaN
  end.

(** Values stored in result objects.  Non-integer numbers (durations,
    megabytes, averages) are exact rationals; binary rounding of IEEE
    doubles is not modelled. *)
Inductive value :=
| VNum (q : Q)
| VNaN
| VStr (s : string)
| VBool (b : bool)
| VUndefined.

Definition of_number (n : number) : value :=
  match n with
  | Num z => VNum (inject_Z z)
  | NaN => VNaN
  end.

(** [s.startsWith(p)] *)
Definition startsWith (s p : string) : bool := String.prefix p s.

(** [s.endsWith(p)] *)
Definition endsWith (s p : string) : bool :=
  let n := String.length s in
  let k := String.length p in
  (k <=? n)%nat && String.eqb (String.substring (n - k) k s) p.

(** [s.includes(p)] *)
Fixpoint includes (s p : string) : bool :=
  String.prefix p s ||
  match s with
  | EmptyString => false
  | String _ s' => includes s' p
  end.

(** [s.replace(p, r)] with a string pattern: the first occurrence only. *)
Fixpoint replace (s p r : string) : string :=
  if String.prefix p s
  then r ++ String.substring (String.length p) (String.length s - String.length p) s
  else match s with
       | EmptyString => EmptyString
       | String c s' => String c (replace s' p r)
       end.

(** [s.split(sep)] for a one-character separator. *)
Fixpoint split_from (sep : ascii) (cur : string) (s : string) : list string :=
  match s with
  | EmptyString => [cur]
  | String c s' =>
      if Ascii.eqb c sep then cur :: split_from sep EmptyString s'
      else split_from sep (cur ++ String c EmptyString) s'
  end.
Definition split (s : string) (sep : ascii) : list string :=
  split_from sep EmptyString s.

(** A string is truthy unless it is empty. *)
Definition truthy (s : string) : bool := negb (String.eqb s "").

Definition is_digit (c : ascii) : bool :=
  let n := nat_of_ascii c in ((48 <=? n) && (n <=? 57))%nat.
Definition digit_val (c : ascii) : Z := Z.of_nat (nat_of_ascii c - 48).

(** White space skipped by [parseInt]: space, tab, LF, VT, FF, CR. *)
Definition is_space (c : ascii) : bool :=
  let n := nat_of_ascii c in
  ((n =? 32) || ((9 <=? n) && (n <=? 13)))%nat.

Fixpoint trim_start (s : string) : string :=
  match s with
  | String c s' => if is_space c then trim_start s' else s
  | EmptyString => EmptyString
  end.

(** The longest prefix of decimal digits, read left to right. *)
Fixpoint digits (acc : option Z) (s : string) : option Z :=
  match s with
  | String c s' =>
      if is_digit c
      then digits (Some (10 * match acc with Some a => a | None => 0 end + digit_val c)) s'
      else acc
  | EmptyString => acc
  end.

(** [parseInt(s, 10)], as the exact integer the digits denote.  The code
    holds a double: it is this integer up to 2^53, and the nearest double
    beyond. *)
Definition parseInt (s : string) : number :=
  let t := trim_start s in
  let '(sign, u) :=
    match t with
    | String "-" u => (-1, u)
    | String "+" u => (1, u)
    | _ => (1, t)
    end in
  match digits None u with
  | Some n => Num (sign * n)
  | None => NaN
  end.

(** [parseFloat(x.toFixed(2))]: [toFixed] takes the integer [n] with
    [n / 100] nearest to [|x|], the larger one on a tie, and restores the
    sign.  The code rounds the double nearest to [x], which on an exact tie
    of the rational may lie on either side of it: the two agree up to the
    choice between the two nearest hundredths. *)
Definition toFixed2 (x : Q) : Q :=
  let n := Qfloor (Qabs x * 100 + (1 # 2))%Q in
  Qred (if Qle_bool 0 x then n # 100 else (- n) # 100).

End JS.

Declare Scope js_scope.
Delimit Scope js_scope with js.
Notation "x <- c ;; k" := (JS.bind c (fun x => k))
  (at level 100, c at next level, right associativity) : js_scope.
Notation "c ;; k" := (JS.bind c (fun _ => k))
  (at level 100, right associativity) : js_scope.

(** ** The engine's URL objects *)
Module Url.
Import JS.

(** The properties of a [URL] object the scripts read. *)
Record URL := mkURL {
  href : string;
  origin : string;
  hostname : string;
  pathname : string
}.

(** [new URL(s)] and [new URL(s, base)] belong to the engine; [None] stands
    for the [TypeError] thrown on an invalid URL. *)
Class Api := {
  parse : string -> option URL;
  parse_with_base : string -> string -> option URL
}.

Definition invalid_url : error := mkError "TypeError" "Invalid URL".

Definition new_URL `{Api} (s : string) : completion URL :=
  match parse s with
  | Some u => Normal u
  | None => Thrown invalid_url
  end.

Definition new_URL_base `{Api} (s base : string) : completion URL :=
  match parse_with_base s base with
  | Some u => Normal u
  | None => Thrown invalid_url
  end.

(** [new URL(null)]: [null] is no absolute URL. *)
Definition new_URL_nullable `{Api} (s : option string) : completion URL :=
  match s with
  | Some s => new_URL s
  | None => Thrown invalid_url
  end.

(** *** A parser for the concrete runs

    It reads [scheme://authority/path?query#fragment] and resolves
    references that are absolute, scheme-relative, rooted at [/] or relative
    to the directory of the base.  No case folding, default ports,
    credentials or dot segments, and no URL without authority ([mailto:],
    [javascript:], [tel:], which [new URL] parses with an empty host name):
    the concrete runs below use none. *)
Fixpoint cut_at (stop : ascii -> bool) (s : string) : string * string :=
  match s with
  | EmptyString => (EmptyString, EmptyString)
  | String c s' =>
      if stop c then (EmptyString, s)
      else let '(a, b) := cut_at stop s' in (String c a, b)
  end.

Definition is_letter (c : ascii) : bool :=
  let n := nat_of_ascii c in
  (((65 <=? n) && (n <=? 90)) || ((97 <=? n) && (n <=? 122)))%nat.

Fixpoint all_letters (s : string) : bool :=
  match s with
  | EmptyString => true
  | String c s' => is_letter c && all_letters s'
  end.

Definition ends_authority (c : ascii) : bool :=
  Ascii.eqb c "/" || Ascii.eqb c "?" || Ascii.eqb c "#".
Definition ends_path (c : ascii) : bool :=
  Ascii.eqb c "?" || Ascii.eqb c "#".

Definition scheme_of (s : string) : option (string * string) :=
  match String.index 0 "://" s with
  | None => None
  | Some i =>
      let scheme := String.substring 0 i s in
      if truthy scheme && all_letters scheme
      then Some (scheme, String.substring (i + 3) (String.length s - (i + 3)) s)
      else None
  end.

Definition basic_parse (s : string) : option URL :=
  match scheme_of s with
  | None => None
  | Some (scheme, rest) =>
      let '(authority, tail) := cut_at ends_authority rest in
      let '(host, _) := cut_at (Ascii.eqb ":") authority in
      let '(path, suffix) := cut_at ends_path tail in
      let path := if truthy path then path else "/" in
      if truthy host
      then Some {| href := scheme ++ "://" ++ authority ++ path ++ suffix;
                   origin := scheme ++ "://" ++ authority;
                   hostname := host;
                   pathname := path |}
      else None
  end.

(** The path up to and including its last [/]. *)
Fixpoint directory (path : string) : string :=
  match path with
  | EmptyString => EmptyString
  | String c rest =>
      if includes rest "/" then String c (directory rest)
      else if Ascii.eqb c "/" then "/" else EmptyString
  end.

Definition basic_parse_with_base (s base : string) : option URL :=
  match basic_parse s with
  | Some u => Some u
  | None =>
      match basic_parse base, scheme_of base with
      | Some b, Some (scheme, _) =>
          if startsWith s "//" then basic_parse (scheme ++ ":" ++ s)
          else if startsWith s "/" then basic_parse (origin b ++ s)
          else basic_parse (origin b ++ directory (pathname b) ++ s)
      | _, _ => None
      end
  end.

Definition basic : Api :=
  {| parse := basic_parse; parse_with_base := basic_parse_with_base |}.

End Url.

(** ** What the engine delivers *)
Module Engine.
Import JS.

(** A [Response] as the handlers read it: [status()], [url()],
    [headers()['content-length']], [headerValue('Location')] and the length
    of the buffer [body()] resolves to, or the error it rejects with. *)
Record response := mkResponse {
  status : Z;
  response_url : string;
  content_length : option string;
  location : option string;
  body : completion nat
}.

(** A [response] event together with [page.url()] at the time the handler
    runs. *)
Record event := mkEvent {
  resp : response;
  page_url_now : string
}.

(** The navigation entry returned by [performance.getEntriesByType]. *)
Record timing := mkTiming {
  startTime : Q;
  domContentLoadedEventEnd : Q;
  loadEventEnd : Q
}.

(** A page once [goto] has resolved: [page.url()], the navigation entry (or
    [undefined]), the number of elements, and the [href] attribute ([null]
    when absent) of each element matched by [page.locator('a')]. *)
Record page := mkPage {
  page_url : string;
  performanceTiming : option timing;
  element_count : Z;
  anchors : list (option string)
}.

(** One visit: the response events handled before the counters are read, in
    the order the handler runs on them, and how the navigation ended. *)
Record visit := mkVisit {
  events : list event;
  outcome : completion page
}.

End Engine.

(** ** What the JSON and the dataset variant have in common

    The two scripts return the same object from [getPageMetrics], pick
    [otherPage] by the same loop and report a failure that is no timeout by
    the same object. *)
Module PageMetrics.
Import JS Url Engine.

(** The object [getPageMetrics] returns.  [actualPage] and [otherPage] hold
    strings on every path. *)
Record trial := mkTrial {
  pageLoadTime_ms : value;
  domContentLoadedTime_ms : value;
  totalTransferred_bytes : value;
  totalSameOriginTransferred_bytes : value;
  totalCrossOriginTransferred_bytes : value;
  totalTransferredResources : value;
  domElementCount : value;
  actualPage : string;
  otherPage : string
}.

Section WithUrl.
Context `{Api}.

(** The [try { new URL(href) ... continue } catch { }] of the anchor loop:
    [true] when the iteration is abandoned by [continue]. *)
Definition off_host (page_url : string) (href : option string) : bool :=
  match new_URL_nullable href with
  | Normal u =>
      match new_URL page_url with
      | Normal p => negb (String.eqb (hostname u) (hostname p))
      | Thrown _ => false
      end
  | Thrown _ => false
  end.

Definition eligible (href : option string) : option string :=
  match href with
  | Some h =>
      if negb (String.eqb h "/") && negb (String.eqb h "/index.html")
         && truthy h && negb (startsWith h "#") && negb (startsWith h "?")
      then Some h else None
  | None => None
  end.

(** The loop over [page.locator('a')] that picks [otherPage]. *)
Fixpoint pick_other (page_url : string) (hrefs : list (option string)) : string :=
  match hrefs with
  | [] => "N/A"
  | href :: rest =>
      if off_host page_url href then pick_other page_url rest
      else match eligible href with
           | Some h => h
           | None => pick_other page_url rest
           end
  end.

End WithUrl.

Definition not_available : trial := {|
  pageLoadTime_ms := VStr "N/A";
  domContentLoadedTime_ms := VStr "N/A";
  totalTransferred_bytes := VStr "N/A";
  totalSameOriginTransferred_bytes := VStr "N/A";
  totalCrossOriginTransferred_bytes := VStr "N/A";
  totalTransferredResources := VStr "N/A";
  domElementCount := VStr "N/A";
  actualPage := "N/A";
  otherPage := "N/A"
|}.

End PageMetrics.

(** ** The JSON variant *)
Module JsonRun.
Import JS Url Engine PageMetrics.
Local Open Scope js_scope.

(** The variables captured by the response handler. *)
Record counters := mkCounters {
  totalTransferredBytes : number;
  totalSameOriginTransferredBytes : number;
  totalCrossOriginTransferredBytes : number;
  totalTransferredResources : Z
}.

Definition fresh : counters := mkCounters (Num 0) (Num 0) (Num 0) 0.

Record pageData := mkPageData {
  siteUrl : string;
  actualSiteUrl : string;
  metrics : list trial;
  otherMetrics : list trial
}.

Section WithUrl.
Context `{Api}.

Definition add_total (n : number) : M counters unit :=
  modify (fun st => mkCounters (add (totalTransferredBytes st) n)
                      (totalSameOriginTransferredBytes st)
                      (totalCrossOriginTransferredBytes st)
                      (totalTransferredResources st)).
Definition add_same (n : number) : M counters unit :=
  modify (fun st => mkCounters (totalTransferredBytes st)
                      (add (totalSameOriginTransferredBytes st) n)
                      (totalCrossOriginTransferredBytes st)
                      (totalTransferredResources st)).
Definition add_cross (n : number) : M counters unit :=
  modify (fun st => mkCounters (totalTransferredBytes st)
                      (totalSameOriginTransferredBytes st)
                      (add (totalCrossOriginTransferredBytes st) n)
                      (totalTransferredResources st)).
Definition count_resource : M counters unit :=
  modify (fun st => mkCounters (totalTransferredBytes st)
                      (totalSameOriginTransferredBytes st)
                      (totalCrossOriginTransferredBytes st)
                      (totalTransferredResources st + 1)).

Definition account (url : string) (r : response) (n : number) : M counters unit :=
  add_total n ;;
  ru <- lift (new_URL (response_url r)) ;;
  u <- lift (new_URL url) ;;
  if String.eqb (hostname ru) (hostname u) then add_same n else add_cross n.

Definition redirect_message : string :=
  "Response body is unavailable for redirect responses".

(** The body of [page.on('response', ...)]: the counters are zeroed in the
    [catch] branch, on the message of a redirect's missing body. *)
Definition on_response (url : string) (r : response) : M counters unit :=
  try_catch
    (if (status r <? 200)%Z || (400 <=? status r)%Z
     then ret tt
     else
       (match content_length r with
        | Some contentLength =>
            if truthy contentLength
            then account url r (parseInt contentLength)
            else buffer <- lift (body r) ;;
                 account url r (Num (Z.of_nat buffer))
        | None =>
            buffer <- lift (body r) ;;
            account url r (Num (Z.of_nat buffer))
        end) ;;
       count_resource)
    (fun error =>
       if includes (message error) redirect_message
       then put fresh
       else ret tt).

Definition handle (url : string) (st : counters) (r : response) : counters :=
  snd (on_response url r st).

Definition observe (url : string) (evs : list event) : counters :=
  fold_left (handle url) (map resp evs) fresh.

Definition measured (c : counters) (p : page) : completion trial :=
  let otherPage := pick_other (page_url p) (anchors p) in
  match performanceTiming p with
  | None => Thrown (mkError "TypeError" "Cannot read properties of undefined")
  | Some t =>
      Normal {|
        pageLoadTime_ms := VNum (toFixed2 (loadEventEnd t - startTime t));
        domContentLoadedTime_ms := VNum (toFixed2 (domContentLoadedEventEnd t - startTime t));
        totalTransferred_bytes := of_number (totalTransferredBytes c);
        totalSameOriginTransferred_bytes := of_number (totalSameOriginTransferredBytes c);
        totalCrossOriginTransferred_bytes := of_number (totalCrossOriginTransferredBytes c);
        PageMetrics.totalTransferredResources := VNum (inject_Z (totalTransferredResources c));
        domElementCount := VNum (inject_Z (element_count p));
        actualPage := page_url p;
        otherPage := otherPage
      |}
  end.

Definition timed_out : trial := {|
  pageLoadTime_ms := VStr "DNF";
  domContentLoadedTime_ms := VStr "DNF";
  totalTransferred_bytes := VStr "DNF";
  totalSameOriginTransferred_bytes := VStr "DNF";
  totalCrossOriginTransferred_bytes := VStr "DNF";
  PageMetrics.totalTransferredResources := VStr "DNF";
  domElementCount := VStr "DNF";
  actualPage := "DNF";
  otherPage := "DNF"
|}.

(** [getPageMetrics(url, name)] on one visit. *)
Definition getPageMetrics (url name : string) (v : visit) : completion trial :=
  and_then (new_URL url) (fun _ =>
    let c := observe url (events v) in
    match and_then (outcome v) (measured c) with
    | Normal t => Normal t
    | Thrown e =>
        if String.eqb (JS.name e) "TimeoutError"
        then Normal timed_out
        else Normal not_available
    end).

(** The address of the secondary page: [site + otherPage] unless
    [otherPage] starts with ["http"]. *)
Definition other_url (site : string) (third : trial) : string :=
  if startsWith (otherPage third) "http"
  then otherPage third
  else site ++ otherPage third.

Definition has_other (third : trial) : bool :=
  negb (String.eqb (otherPage third) "N/A") && negb (String.eqb (otherPage third) "DNF").

Section Run.
Context {W : Type} (browse : string -> string -> W -> visit * W).

Record session := mkSession {
  world : W;
  calls : list (string * string)
}.

Definition call_getPageMetrics (url name : string) : M session trial :=
  fun s =>
    let '(v, w) := browse url name (world s) in
    (getPageMetrics url name v, mkSession w (calls s ++ [(url, name)])%list).

Fixpoint repeat_trials (url prefix : string) (labels : list string) : M session (list trial) :=
  match labels with
  | [] => ret []
  | i :: rest =>
      t <- call_getPageMetrics url (prefix ++ i) ;;
      ts <- repeat_trials url prefix rest ;;
      ret (t :: ts)
  end.

Definition iterations : list string := ["1"; "2"; "3"].

(** The body of the loop over [pages.json]. *)
Definition load_site (site : string) : M session pageData :=
  indexPageMetricTimes <- repeat_trials site "iter-" iterations ;;
  third <- lift (at_index indexPageMetricTimes 2) ;;
  otherPageMetricTimes <-
    (if has_other third
     then repeat_trials (other_url site third) "other-iter-" iterations
     else ret []) ;;
  first <- lift (at_index indexPageMetricTimes 0) ;;
  ret {| siteUrl := site;
         actualSiteUrl := actualPage first;
         metrics := indexPageMetricTimes;
         otherMetrics := otherPageMetricTimes |}.

Fixpoint loadPages (json : list string) : M session (list pageData) :=
  match json with
  | [] => ret []
  | site :: rest =>
      d <- load_site site ;;
      ds <- loadPages rest ;;
      ret (d :: ds)
  end.
End Run.

End WithUrl.
End JsonRun.

(** ** The dataset variant (CSV output) *)
Module CsvRun.
Import JS Url Engine PageMetrics.
Local Open Scope js_scope.

(** The variables captured by the response handler. *)
Record counters := mkCounters {
  totalTransferredBytes : number;
  totalSameOriginTransferredBytes : number;
  totalCrossOriginTransferredBytes : number;
  totalTransferredResources : Z;
  redirected : bool
}.

Definition fresh : counters := mkCounters (Num 0) (Num 0) (Num 0) 0 false.

Record pageData := mkPageData {
  dataset : string;
  siteUrl : string;
  actualSiteUrl : string;
  metrics : list trial;
  otherMetrics : list trial
}.

Section WithUrl.
Context `{Api}.

(** [page.url() == "about:blank" ? await response.headerValue('Location') : page.url()] *)
Definition redirect_target (ev : event) : option string :=
  if String.eqb (page_url_now ev) "about:blank"
  then location (resp ev)
  else Some (page_url_now ev).

(** The condition of the handler's first [if], conjunct by conjunct. *)
Definition redirect_found (url : string) (ev : event) : M counters bool :=
  st <- get ;;
  if (301 <=? status (resp ev))%Z && (status (resp ev) <=? 399)%Z && negb (redirected st)
  then
    t <- lift (new_URL_nullable (redirect_target ev)) ;;
    u <- lift (new_URL url) ;;
    if String.eqb (pathname t) (pathname u)
    then
      t' <- lift (new_URL_nullable (redirect_target ev)) ;;
      u' <- lift (new_URL url) ;;
      ret (negb (String.eqb (hostname t') (hostname u')))
    else ret false
  else ret false.

Definition reset : M counters unit :=
  modify (fun _ => mkCounters (Num 0) (Num 0) (Num 0) 0 true).

Definition add_total (n : number) : M counters unit :=
  modify (fun st => mkCounters (add (totalTransferredBytes st) n)
                      (totalSameOriginTransferredBytes st)
                      (totalCrossOriginTransferredBytes st)
                      (totalTransferredResources st) (redirected st)).
Definition add_same (n : number) : M counters unit :=
  modify (fun st => mkCounters (totalTransferredBytes st)
                      (add (totalSameOriginTransferredBytes st) n)
                      (totalCrossOriginTransferredBytes st)
                      (totalTransferredResources st) (redirected st)).
Definition add_cross (n : number) : M counters unit :=
  modify (fun st => mkCounters (totalTransferredBytes st)
                      (totalSameOriginTransferredBytes st)
                      (add (totalCrossOriginTransferredBytes st) n)
                      (totalTransferredResources st) (redirected st)).
Definition count_resource : M counters unit :=
  modify (fun st => mkCounters (totalTransferredBytes st)
                      (totalSameOriginTransferredBytes st)
                      (totalCrossOriginTransferredBytes st)
                      (totalTransferredResources st + 1) (redirected st)).

(** The two branches on [contentLength] add the same way: to the total,
    then to the bucket chosen by comparing host names. *)
Definition account (url : string) (r : response) (n : number) : M counters unit :=
  add_total n ;;
  ru <- lift (new_URL (response_url r)) ;;
  u <- lift (new_URL url) ;;
  if String.eqb (hostname ru) (hostname u) then add_same n else add_cross n.

(** The body of [page.on('response', ...)]. *)
Definition on_response (url : string) (ev : event) : M counters unit :=
  try_catch
    (found <- redirect_found url ev ;;
     (if found then reset else ret tt) ;;
     if (status (resp ev) <? 200)%Z || (400 <=? status (resp ev))%Z
     then ret tt
     else
       (match content_length (resp ev) with
        | Some contentLength =>
            if truthy contentLength
            then account url (resp ev) (parseInt contentLength)
            else buffer <- lift (body (resp ev)) ;;
                 account url (resp ev) (Num (Z.of_nat buffer))
        | None =>
            buffer <- lift (body (resp ev)) ;;
            account url (resp ev) (Num (Z.of_nat buffer))
        end) ;;
       count_resource)
    (fun _ => ret tt).

Definition handle (url : string) (st : counters) (ev : event) : counters :=
  snd (on_response url ev st).

(** The counters once every event of the visit has been handled, the call
    of the handler for one event running to its end before the call for the
    next one starts.  The calls as they may overlap are in [CsvListener]
    below. *)
Definition observe (url : string) (evs : list event) : counters :=
  fold_left (handle url) evs fresh.

Definition measured (c : counters) (p : page) : completion trial :=
  let otherPage := pick_other (page_url p) (anchors p) in
  match performanceTiming p with
  | None => Thrown (mkError "TypeError" "Cannot read properties of undefined")
  | Some t =>
      Normal {|
        pageLoadTime_ms := VNum (toFixed2 (loadEventEnd t - startTime t));
        domContentLoadedTime_ms := VNum (toFixed2 (domContentLoadedEventEnd t - startTime t));
        totalTransferred_bytes := of_number (totalTransferredBytes c);
        totalSameOriginTransferred_bytes := of_number (totalSameOriginTransferredBytes c);
        totalCrossOriginTransferred_bytes := of_number (totalCrossOriginTransferredBytes c);
        PageMetrics.totalTransferredResources := VNum (inject_Z (totalTransferredResources c));
        domElementCount := VNum (inject_Z (element_count p));
        actualPage := page_url p;
        otherPage := otherPage
      |}
  end.

Definition timed_out (c : counters) : trial := {|
  pageLoadTime_ms := VStr "DNF";
  domContentLoadedTime_ms := VStr "DNF";
  totalTransferred_bytes := of_number (totalTransferredBytes c);
  totalSameOriginTransferred_bytes := of_number (totalSameOriginTransferredBytes c);
  totalCrossOriginTransferred_bytes := of_number (totalCrossOriginTransferredBytes c);
  PageMetrics.totalTransferredResources := VNum (inject_Z (totalTransferredResources c));
  domElementCount := VStr "DNF";
  actualPage := "DNF";
  otherPage := "DNF"
|}.

(** [getPageMetrics(url, name)] on one visit.  [new URL(url)] for the
    capture path is evaluated outside the [try]: an invalid [url] makes
    the call itself throw. *)
Definition getPageMetrics (url name : string) (v : visit) : completion trial :=
  and_then (new_URL url) (fun _ =>
    let c := observe url (events v) in
    match and_then (outcome v) (measured c) with
    | Normal t => Normal t
    | Thrown e =>
        if String.eqb (JS.name e) "TimeoutError"
        then Normal (timed_out c)
        else Normal not_available
    end).

(** The address of the secondary page, as [loadPages] builds it from the
    third trial of the index page. *)
Definition other_url (third : trial) : string :=
  if startsWith (otherPage third) "http"
  then otherPage third
  else actualPage third ++
       (if startsWith (otherPage third) "/"
        then replace (otherPage third) "/" ""
        else otherPage third).

(** [indexPageMetricTimes[2].otherPage != "N/A" && ... != "DNF"] *)
Definition has_other (third : trial) : bool :=
  negb (String.eqb (otherPage third) "N/A") && negb (String.eqb (otherPage third) "DNF").

(** *** The run

    [browse url name w] is what the engine lets the call
    [getPageMetrics(url, name)] observe in world [w], and the world after
    it.  [calls] records the calls of [getPageMetrics] in order. *)
Section Run.
Context {W : Type} (browse : string -> string -> W -> visit * W).

Record session := mkSession {
  world : W;
  calls : list (string * string)
}.

Definition call_getPageMetrics (url name : string) : M session trial :=
  fun s =>
    let '(v, w) := browse url name (world s) in
    (getPageMetrics url name v, mkSession w (calls s ++ [(url, name)])%list).

(** [for (let i = 1; i <= 3; i++) arr.push(await getPageMetrics(url, prefix + i))],
    over the labels ["1"; "2"; "3"]. *)
Fixpoint repeat_trials (url prefix : string) (labels : list string) : M session (list trial) :=
  match labels with
  | [] => ret []
  | i :: rest =>
      t <- call_getPageMetrics url (prefix ++ i) ;;
      ts <- repeat_trials url prefix rest ;;
      ret (t :: ts)
  end.

Definition iterations : list string := ["1"; "2"; "3"].

(** The body of the loop over the sites of a dataset. *)
Definition load_site (dataset_name site : string) : M session pageData :=
  indexPageMetricTimes <- repeat_trials site "iter-" iterations ;;
  third <- lift (at_index indexPageMetricTimes 2) ;;
  otherPageMetricTimes <-
    (if has_other third
     then repeat_trials (other_url third) "other-iter-" iterations
     else ret []) ;;
  first <- lift (at_index indexPageMetricTimes 0) ;;
  ret {| dataset := dataset_name;
         siteUrl := site;
         actualSiteUrl := actualPage first;
         metrics := indexPageMetricTimes;
         otherMetrics := otherPageMetricTimes |}.

Fixpoint load_sites (dataset_name : string) (sites : list string) : M session (list pageData) :=
  match sites with
  | [] => ret []
  | site :: rest =>
      d <- load_site dataset_name site ;;
      ds <- load_sites dataset_name rest ;;
      ret (d :: ds)
  end.

(** [loadPages] up to the point where the rows are written: every
    dataset [(name, urls)] in order, every site of it in order. *)
Fixpoint loadPages (datasets : list (string * list string)) : M session (list pageData) :=
  match datasets with
  | [] => ret []
  | (dataset_name, sites) :: rest =>
      ds <- load_sites dataset_name sites ;;
      more <- loadPages rest ;;
      ret (ds ++ more)%list
  end.
End Run.

(** [otherMetrics.length > 0 ? otherMetrics[i].f : "N/A"] *)
Definition other_cell (otherMetrics : list trial) (i : nat) (f : trial -> value) : completion value :=
  if (0 <? List.length otherMetrics)%nat
  then and_then (at_index otherMetrics i) (fun t => Normal (f t))
  else Normal (VStr "N/A").

Definition cell (metrics : list trial) (i : nat) (f : trial -> value) : completion value :=
  and_then (at_index metrics i) (fun t => Normal (f t)).

Fixpoint sequence (cs : list (completion value)) : completion (list value) :=
  match cs with
  | [] => Normal []
  | c :: rest => and_then c (fun v => and_then (sequence rest) (fun vs => Normal (v :: vs)))
  end.

(** The values interpolated into one line of the CSV file, left to right,
    before they are turned into text. *)
Definition csv_cells (d : pageData) : completion (list value) :=
  let m := metrics d in
  let o := otherMetrics d in
  sequence [
    Normal (VStr (dataset d)); Normal (VStr (siteUrl d)); Normal (VStr (actualSiteUrl d));
    cell m 0 domContentLoadedTime_ms; cell m 1 domContentLoadedTime_ms; cell m 2 domContentLoadedTime_ms;
    cell m 0 pageLoadTime_ms; cell m 1 pageLoadTime_ms; cell m 2 pageLoadTime_ms;
    cell m 2 totalTransferred_bytes; cell m 2 totalSameOriginTransferred_bytes;
    cell m 2 totalCrossOriginTransferred_bytes; cell m 2 PageMetrics.totalTransferredResources;
    cell m 2 domElementCount;
    other_cell o 0 (fun t => VStr (actualPage t));
    other_cell o 0 domContentLoadedTime_ms; other_cell o 1 domContentLoadedTime_ms;
    other_cell o 2 domContentLoadedTime_ms;
    other_cell o 0 pageLoadTime_ms; other_cell o 1 pageLoadTime_ms; other_cell o 2 pageLoadTime_ms;
    other_cell o 2 totalTransferred_bytes; other_cell o 2 totalSameOriginTransferred_bytes;
    other_cell o 2 totalCrossOriginTransferred_bytes; other_cell o 2 PageMetrics.totalTransferredResources;
    other_cell o 2 domElementCount
  ].

End WithUrl.
End CsvRun.

(** ** The listener of the dataset variant as it is scheduled

    [page.on('response', async response => ...)]: every response starts a
    call of the handler, which runs until its first [await]; the awaited
    promise settles later, and until the call continues other calls may
    start or continue and the page may navigate.  JavaScript runs one piece
    at a time: what lies between two [await]s is not interrupted.
    [CsvRun.on_response] above is the handler run in one piece. *)
Module CsvListener.
Import JS Url Engine.
Local Open Scope js_scope.

(** The [await]s of the handler, in source order: the three
    [await response.headerValue('Location')] of the first [if] (in the left
    operand of the comparison of path names, in that of the comparison of
    host names, in the logged message) and [await response.body()]. *)
Inductive suspension :=
| Location_for_pathname
| Location_for_hostname
| Location_for_message
| Body.

(** What the calls share: the captured variables, [page.url()], and the
    targets written by [console.log(`[PageMtr] Redirects found, ...`)], one
    for each time the counters are reset. *)
Record shared := mkShared {
  variables : CsvRun.counters;
  current_url : string;
  redirects_logged : list (option string)
}.

Definition on_variables {A} (c : M CsvRun.counters A) : M shared A :=
  fun st =>
    let '(a, v) := c (variables st) in
    (a, mkShared v (current_url st) (redirects_logged st)).

Section WithUrl.
Context `{Api}.

(** From the status filter to the end of the handler, or to
    [await response.body()]. *)
Definition count (url : string) (r : response) : M shared (option suspension) :=
  if (status r <? 200)%Z || (400 <=? status r)%Z
  then ret None
  else
    match content_length r with
    | Some contentLength =>
        if truthy contentLength
        then on_variables (CsvRun.account url r (parseInt contentLength) ;;
                           CsvRun.count_resource) ;;
             ret None
        else ret (Some Body)
    | None => ret (Some Body)
    end.

(** Once [response.body()] has settled. *)
Definition after_body (url : string) (r : response) : M shared (option suspension) :=
  on_variables (buffer <- lift (body r) ;;
                CsvRun.account url r (Num (Z.of_nat buffer)) ;;
                CsvRun.count_resource) ;;
  ret None.

(** The body of the first [if] once the message is written. *)
Definition reset (target : option string) : M shared unit :=
  modify (fun st => mkShared (variables st) (current_url st) (redirects_logged st ++ [target])) ;;
  on_variables CsvRun.reset.

(** The message: [page.url()] is read a third time. *)
Definition log_redirect (url : string) (r : response) : M shared (option suspension) :=
  st <- get ;;
  if String.eqb (current_url st) "about:blank"
  then ret (Some Location_for_message)
  else reset (Some (current_url st)) ;; count url r.

(** [new URL(target).hostname != new URL(url).hostname] *)
Definition hostname_differs (url : string) (r : response) (target : option string)
  : M shared (option suspension) :=
  t <- lift (new_URL_nullable target) ;;
  u <- lift (new_URL url) ;;
  if negb (String.eqb (hostname t) (hostname u))
  then log_redirect url r
  else count url r.

Definition hostname_operand (url : string) (r : response) : M shared (option suspension) :=
  st <- get ;;
  if String.eqb (current_url st) "about:blank"
  then ret (Some Location_for_hostname)
  else hostname_differs url r (Some (current_url st)).

(** [new URL(target).pathname == new URL(url).pathname] *)
Definition pathname_equal (url : string) (r : response) (target : option string)
  : M shared (option suspension) :=
  t <- lift (new_URL_nullable target) ;;
  u <- lift (new_URL url) ;;
  if String.eqb (pathname t) (pathname u)
  then hostname_operand url r
  else count url r.

Definition pathname_operand (url : string) (r : response) : M shared (option suspension) :=
  st <- get ;;
  if String.eqb (current_url st) "about:blank"
  then ret (Some Location_for_pathname)
  else pathname_equal url r (Some (current_url st)).

(** The start of a call: the status and the flag are tested first. *)
Definition enter (url : string) (r : response) : M shared (option suspension) :=
  st <- get ;;
  if (301 <=? status r)%Z && (status r <=? 399)%Z && negb (CsvRun.redirected (variables st))
  then pathname_operand url r
  else count url r.

(** A call continues where it waited; [headerValue('Location')] has
    resolved to the header, [null] when there is none. *)
Definition continue (url : string) (r : response) (s : suspension)
  : M shared (option suspension) :=
  match s with
  | Location_for_pathname => pathname_equal url r (location r)
  | Location_for_hostname => hostname_differs url r (location r)
  | Location_for_message => reset (location r) ;; count url r
  | Body => after_body url r
  end.

(** One piece inside the handler's [try]: an error ends the call. *)
Definition piece (c : M shared (option suspension)) (st : shared) : option suspension * shared :=
  match c st with
  | (Normal s, st') => (s, st')
  | (Thrown _, st') => (None, st')
  end.

(** The page and the calls that wait. *)
Record machine := mkMachine {
  common : shared;
  waiting : list (response * suspension)
}.

(** What happens next: a response arrives, the promise the [k]-th waiting
    call awaits settles, or the page navigates. *)
Inductive occurrence :=
| Responded (r : response)
| Settled (k : nat)
| Navigated (to : string).

Definition step (url : string) (m : machine) (o : occurrence) : machine :=
  match o with
  | Responded r =>
      let '(next, st) := piece (enter url r) (common m) in
      mkMachine st (match next with
                    | Some s => (waiting m ++ [(r, s)])%list
                    | None => waiting m
                    end)
  | Settled k =>
      match waiting m !! k with
      | Some (r, s) =>
          let '(next, st) := piece (continue url r s) (common m) in
          mkMachine st (match next with
                        | Some s' => <[k := (r, s')]> (waiting m)
                        | None => delete k (waiting m)
                        end)
      | None => m
      end
  | Navigated to =>
      mkMachine (mkShared (variables (common m)) to (redirects_logged (common m))) (waiting m)
  end.

(** A page starts blank, with the variables as [getPageMetrics] declares
    them. *)
Definition start : machine := mkMachine (mkShared CsvRun.fresh "about:blank" []) [].

Definition run (url : string) (occurrences : list occurrence) : machine :=
  fold_left (step url) occurrences start.

End WithUrl.
End CsvListener.

(** ** What the engine delivers to the two CSV-per-URL variants *)
Module Browser.
Import JS Engine.

(** A loaded page as [findHomepageLinkOnce] queries it: [page.url()] and,
    for a selector, the [href] attribute ([null] when absent) of each
    element [page.locator(selector)] matches, in document order. *)
Record document := mkDocument {
  document_url : string;
  locate : string -> list (option string)
}.

(** What a load that ran to its end has measured: the two durations taken
    with [performance.now()], the navigation entry (or [undefined]) and the
    number of elements. *)
Record loaded := mkLoaded {
  domContentLoadedTime : Q;
  loadTime : Q;
  navigationEntry : option timing;
  elements : Z
}.

(** One load: the responses handled before the byte total is read, and how
    the load ended ([Thrown] when [newPage], [goto], [waitForLoadState] or
    [evaluate] rejects). *)
Record load := mkLoad {
  responses : list response;
  finished : completion loaded
}.

End Browser.

(** ** The averaging variant *)
Module Averages.
Import JS Url Engine Browser.
Local Open Scope js_scope.

(** Objects built from literals; [m[k]] is [undefined] for a missing key. *)
Definition prop (m : gmap string value) (k : string) : value :=
  default VUndefined (m !! k).

(** The response handler of [getInitialPageLoadMetrics]: every response is
    counted, whatever its status; errors are ignored. *)
Definition on_response (r : response) : M number unit :=
  try_catch
    (match content_length r with
     | Some contentLength =>
         if truthy contentLength
         then modify (fun total => add total (parseInt contentLength))
         else buffer <- lift (body r) ;;
              modify (fun total => add total (Num (Z.of_nat buffer)))
     | None =>
         buffer <- lift (body r) ;;
         modify (fun total => add total (Num (Z.of_nat buffer)))
     end)
    (fun _ => ret tt).

Definition observe (rs : list response) : number :=
  fold_left (fun total r => snd (on_response r total)) rs (Num 0).

(** [parseFloat((totalTransferredBytes / (1024 * 1024)).toFixed(2))] *)
Definition megabytes (total : number) : value :=
  match total with
  | Num z => VNum (toFixed2 (inject_Z z / inject_Z (1024 * 1024)))
  | NaN => VNaN
  end.

Definition api_time (entry : option timing) (event_end : timing -> Q) : value :=
  match entry with
  | Some t => VNum (toFixed2 (event_end t - startTime t))
  | None => VStr "N/A"
  end.

(** [getInitialPageLoadMetrics(page, url)] on one load. *)
Definition getInitialPageLoadMetrics (l : load) : completion (gmap string value) :=
  and_then (finished l) (fun p =>
    let totalTransferredBytes := observe (responses l) in
    Normal (<["domContentLoadedTime" := VNum (toFixed2 (domContentLoadedTime p))]>
           (<["loadTime" := VNum (toFixed2 (loadTime p))]>
           (<["pageLoadApiTime" := api_time (navigationEntry p) loadEventEnd]>
           (<["domContentLoadedApiTime" := api_time (navigationEntry p) domContentLoadedEventEnd]>
           (<["totalTransferredBytes" := of_number totalTransferredBytes]>
           (<["totalTransferredMB" := megabytes totalTransferredBytes]>
           (<["domElementCount" := VNum (inject_Z (elements p))]> ∅)))))))).

(** The selectors in their order; the double quotes inside them are
    written as single quotes here. *)
Definition homepageSelectors : list string := [
  "a[href='/']";
  "a[href='/index.html']";
  "a[href='/home.html']";
  "a:has(img[alt*='logo' i])";
  "a:has(img[alt*='home' i])";
  "a:has(img[alt*='site title' i])";
  "a:has(img[alt])";
  "a:has(img[class*='logo' i])";
  "a:has(img[src*='logo' i])";
  "a:has(img[src*='home' i])";
  "a:has(img)";
  "a:has-text('Home')";
  "a:has-text('home')";
  "a:has-text('Blog')";
  "a:has-text('Main')";
  "h1 a, h2 a";
  "a[title*='Home' i]";
  "a[aria-label*='Home' i]";
  "a[rel='home']";
  "a[rel='start']";
  "a.navbar-brand";
  "a#logo";
  "a.home-link";
  "a.site-title";
  "a.site-header a";
  "a[href*='/']"
].

(** The two variables of [findHomepageLinkOnce], and the selectors handed
    to [page.locator] so far. *)
Record finder := mkFinder {
  foundHref : string;
  linkFound : bool;
  queried : list string
}.

Definition accept (absoluteHref : string) : M finder unit :=
  modify (fun st => mkFinder absoluteHref true (queried st)).

Definition query (selector : string) : M finder unit :=
  modify (fun st => mkFinder (foundHref st) (linkFound st) (queried st ++ [selector])%list).

Section WithUrl.
Context `{Api}.

Definition isShortRelativePath (relativePath : string) : bool :=
  String.eqb relativePath "/"
  || (List.length (List.filter truthy (split relativePath "/")) <=? 1)%nat
  || endsWith relativePath "/index.html"
  || endsWith relativePath "/home.html".

(** One turn of the loop over the matched elements; [true] when it ends
    in [break]. *)
Definition try_anchor (currentDomain page_url : string) (attr : option string) : M finder bool :=
  match attr with
  | None => ret false
  | Some href =>
      if truthy href
      then
        u <- lift (new_URL_base href page_url) ;;
        let absoluteHref := Url.href u in
        if startsWith absoluteHref currentDomain
        then
          if String.eqb href "/"
          then accept absoluteHref ;; ret true
          else
            st <- get ;;
            if (String.eqb href "/index.html" || String.eqb href "/home.html")
               && (negb (linkFound st) || negb (String.eqb (foundHref st) (currentDomain ++ "/")))
            then accept absoluteHref ;; ret true
            else
              p <- lift (new_URL absoluteHref) ;;
              let relativePath := pathname p in
              (if isShortRelativePath relativePath && negb (linkFound st)
               then accept absoluteHref
               else ret tt) ;;
              ret false
        else ret false
      else ret false
  end.

Fixpoint try_anchors (currentDomain page_url : string) (attrs : list (option string)) : M finder unit :=
  match attrs with
  | [] => ret tt
  | attr :: rest =>
      stop <- try_anchor currentDomain page_url attr ;;
      if stop then ret tt else try_anchors currentDomain page_url rest
  end.

Definition confident (currentDomain : string) (st : finder) : bool :=
  linkFound st
  && (String.eqb (foundHref st) (currentDomain ++ "/")
      || endsWith (foundHref st) "/index.html"
      || endsWith (foundHref st) "/home.html").

Fixpoint try_selectors (currentDomain : string) (page : document) (selectors : list string) : M finder unit :=
  match selectors with
  | [] => ret tt
  | selector :: rest =>
      query selector ;;
      let locators := locate page selector in
      if (0 <? List.length locators)%nat
      then
        try_anchors currentDomain (document_url page) locators ;;
        st <- get ;;
        if confident currentDomain st then ret tt
        else try_selectors currentDomain page rest
      else try_selectors currentDomain page rest
  end.

Record link := mkLink { found : bool; href : string }.

(** [findHomepageLinkOnce(page, initialUrl)], with the selectors it
    queried. *)
Definition find_link (page : document) (initialUrl : string) : finder :=
  snd (try_catch
         (u <- lift (new_URL initialUrl) ;;
          let currentDomain := origin u in
          try_selectors currentDomain page homepageSelectors)
         (fun _ => ret tt)
         (mkFinder "N/A" false [])).

Definition findHomepageLinkOnce (page : document) (initialUrl : string) : link :=
  let st := find_link page initialUrl in
  {| found := linkFound st; href := foundHref st |}.

End WithUrl.

(** [measureHomepageNavigation(page, homepageTargetUrl, initialPageUrl)]:
    [navigation] is the duration of [page.goto] measured with
    [performance.now()], or the error it rejects with. *)
Definition measureHomepageNavigation (homepageTargetUrl : string) (navigation : completion Q)
  : gmap string value :=
  if String.eqb homepageTargetUrl "N/A"
  then <["homepageLinkFound" := VBool false]> (<["homepageLinkClickTime" := VStr "N/A"]> ∅)
  else match navigation with
       | Normal elapsed =>
           <["homepageLinkFound" := VBool true]>
             (<["homepageLinkClickTime" := VNum (toFixed2 elapsed)]> ∅)
       | Thrown _ =>
           <["homepageLinkFound" := VBool false]> (<["homepageLinkClickTime" := VStr "N/A"]> ∅)
       end.

(** [val => typeof val === 'number' && !isNaN(val)], keeping the number. *)
Definition as_number (val : value) : option Q :=
  match val with
  | VNum q => Some q
  | _ => None
  end.

Definition is_true (val : value) : bool :=
  match val with
  | VBool true => true
  | _ => false
  end.

(** [calculateAverage(metricsArray, metricName)] *)
Definition calculateAverage (metricsArray : list (gmap string value)) (metricName : string) : value :=
  if String.eqb metricName "homepageLinkFound"
  then
    let trueCount := List.length (List.filter (fun m => is_true (prop m metricName)) metricsArray) in
    VBool (0 <? trueCount)%nat
  else
    let values := omap as_number (map (fun m => prop m metricName) metricsArray) in
    if (List.length values =? 0)%nat
    then VStr "N/A"
    else
      let sum := fold_left (fun acc val => (acc + val)%Q) values (0%Q) in
      VNum (toFixed2 (sum / inject_Z (Z.of_nat (List.length values)))).

(** *** The loop over the URLs

    The engine's part of one turn: [initial_load] for each of the three
    initial loads, [link_page] for the page opened to look for the link
    ([Thrown] when [newPage] or [goto] rejects), [home_navigation] for each
    navigation to the link: [Thrown] when [newPage] rejects, otherwise what
    [measureHomepageNavigation] is given. *)
Section Run.
Context `{Api} {W : Type}
  (initial_load : string -> W -> load * W)
  (link_page : string -> W -> completion document * W)
  (home_navigation : string -> W -> completion (completion Q) * W).

Definition tries : list nat := [0; 1; 2]%nat.

(** The first [for] loop: what is pushed for each try. *)
Fixpoint initial_tries (url : string) (turns : list nat) (w : W) : list (gmap string value) * W :=
  match turns with
  | [] => ([], w)
  | _ :: rest =>
      let '(l, w1) := initial_load url w in
      let pushed :=
        match getInitialPageLoadMetrics l with
        | Normal metrics => metrics
        | Thrown error => <["error" := VStr (message error)]> ∅
        end in
      let '(more, w2) := initial_tries url rest w1 in
      (pushed :: more, w2)
  end.

(** The link is looked for once. *)
Definition identify (url : string) (w : W) : link * W :=
  let '(opened, w1) := link_page url w in
  match opened with
  | Normal page => (findHomepageLinkOnce page url, w1)
  | Thrown _ => ({| found := false; href := "N/A" |}, w1)
  end.

Fixpoint navigation_tries (identifiedHomepageHref : string) (turns : list nat) (w : W)
  : list (gmap string value) * W :=
  match turns with
  | [] => ([], w)
  | _ :: rest =>
      let '(opened, w1) := home_navigation identifiedHomepageHref w in
      let pushed :=
        match opened with
        | Normal navigation => measureHomepageNavigation identifiedHomepageHref navigation
        | Thrown error =>
            <["error" := VStr (message error)]>
              (<["homepageLinkFound" := VBool false]> (<["homepageLinkClickTime" := VStr "N/A"]> ∅))
        end in
      let '(more, w2) := navigation_tries identifiedHomepageHref rest w1 in
      (pushed :: more, w2)
  end.

Definition placeholders (turns : list nat) : list (gmap string value) :=
  map (fun _ => <["homepageLinkFound" := VBool false]> (<["homepageLinkClickTime" := VStr "N/A"]> ∅)) turns.

Record site := mkSite {
  initialLoadMetricsOverTries : list (gmap string value);
  identifiedHomepageHref : string;
  homepageLinkFoundOverall : bool;
  homepageNavigationMetricsOverTries : list (gmap string value);
  consolidatedMetrics : list value
}.

(** One turn of the loop over [urlsToTest]; [consolidatedMetrics] lists
    the values of the CSV row in column order. *)
Definition process_url (url : string) (w : W) : site * W :=
  let '(initials, w1) := initial_tries url tries w in
  let '(linkResult, w2) := identify url w1 in
  let '(navigations, w3) :=
    if found linkResult
    then navigation_tries (href linkResult) tries w2
    else (placeholders tries, w2) in
  ({| initialLoadMetricsOverTries := initials;
      identifiedHomepageHref := href linkResult;
      homepageLinkFoundOverall := found linkResult;
      homepageNavigationMetricsOverTries := navigations;
      consolidatedMetrics :=
        [ VStr url;
          calculateAverage initials "domContentLoadedTime";
          calculateAverage initials "loadTime";
          calculateAverage initials "pageLoadApiTime";
          calculateAverage initials "domContentLoadedApiTime";
          calculateAverage initials "totalTransferredBytes";
          calculateAverage initials "totalTransferredMB";
          calculateAverage initials "domElementCount";
          VBool (found linkResult);
          VStr (href linkResult);
          calculateAverage navigations "homepageLinkClickTime" ] |}, w3).
End Run.
End Averages.

(** ** The variant recording every try *)
Module Tries.
Import JS Url Engine Browser.
Local Open Scope js_scope.

(** The response handler of [getPageLoadMetrics]. *)
Definition on_response (r : response) : M number unit :=
  try_catch
    (if (status r <? 200)%Z || (400 <=? status r)%Z
     then ret tt
     else
       match content_length r with
       | Some contentLength =>
           if truthy contentLength
           then modify (fun total => add total (parseInt contentLength))
           else buffer <- lift (body r) ;;
                modify (fun total => add total (Num (Z.of_nat buffer)))
       | None =>
           buffer <- lift (body r) ;;
           modify (fun total => add total (Num (Z.of_nat buffer)))
       end)
    (fun _ => ret tt).

Definition handle (total : number) (r : response) : number :=
  snd (on_response r total).

Definition observe (rs : list response) : number :=
  fold_left handle rs (Num 0).

(** [getPageLoadMetrics(page, url)] on one load. *)
Definition getPageLoadMetrics (l : load) : completion (gmap string value) :=
  and_then (finished l) (fun p =>
    let totalTransferredBytes := observe (responses l) in
    Normal (<["domContentLoadedTime_ms" := VNum (toFixed2 (domContentLoadedTime p))]>
           (<["loadTime_ms" := VNum (toFixed2 (loadTime p))]>
           (<["pageLoadApiTime_ms" := Averages.api_time (navigationEntry p) loadEventEnd]>
           (<["domContentLoadedApiTime_ms" := Averages.api_time (navigationEntry p) domContentLoadedEventEnd]>
           (<["pageSize_Bytes" := of_number totalTransferredBytes]>
           (<["pageSize_MB" := Averages.megabytes totalTransferredBytes]>
           (<["domElementCount" := VNum (inject_Z (elements p))]> ∅)))))))).

Definition metric_names : list string :=
  [ "domContentLoadedTime_ms"; "loadTime_ms"; "pageLoadApiTime_ms";
    "domContentLoadedApiTime_ms"; "pageSize_Bytes"; "pageSize_MB"; "domElementCount" ].

(** The object assigned to [metrics] in the [catch] branch of a try. *)
Definition failed (error : JS.error) : gmap string value :=
  let status := if String.eqb (JS.name error) "TimeoutError" then "DNF" else "N/A" in
  <["error" := VStr (message error)]>
  (<["domContentLoadedTime_ms" := VStr status]>
  (<["loadTime_ms" := VStr status]>
  (<["pageLoadApiTime_ms" := VStr status]>
  (<["domContentLoadedApiTime_ms" := VStr status]>
  (<["pageSize_Bytes" := VStr status]>
  (<["pageSize_MB" := VStr status]>
  (<["domElementCount" := VStr status]> ∅))))))).

(** One turn of either [for] loop over the tries: the object pushed in the
    [finally] branch. *)
Definition one_try (l : load) : gmap string value :=
  match getPageLoadMetrics l with
  | Normal metrics => metrics
  | Thrown error => failed error
  end.

End Tries.

(** ** Concrete visits *)
Module Sample.
Import JS Url Engine Browser.

Definition site : string := "https://example.com/".

Definition unavailable : JS.error :=
  mkError "Error" "Response body is unavailable for redirect responses".

(** 1000 bytes from the site's own host, 2000 from another host. *)
Definition same_1000 : event :=
  mkEvent (mkResponse 200 "https://example.com/app.js" (Some "1000") None (Normal 1000%nat)) site.
Definition cross_2000 : event :=
  mkEvent (mkResponse 200 "https://cdn.example.net/lib.js" (Some "2000") None (Normal 2000%nat)) site.

(** A 301 to another host and the same path, seen while the page is still
    blank; it carries no content-length and its body cannot be read. *)
Definition moved : event :=
  mkEvent (mkResponse 301 site None (Some "https://www.example.org/") (Thrown unavailable))
    "about:blank".





Definition not_found : event :=
  mkEvent (mkResponse 404 "https://example.com/missing.png" (Some "512") None (Normal 512%nat)) site.

(** How a navigation fails: past its time bound, or otherwise. *)
Definition timeout : JS.error :=
  mkError "TimeoutError" "page.goto: Timeout 60000ms exceeded.".
Definition refused : JS.error :=
  mkError "Error" "page.goto: net::ERR_CONNECTION_REFUSED".

(** 1000 bytes arrive, then the navigation times out. *)
Definition slow_visit : visit := mkVisit [same_1000] (Thrown timeout).
Definition slow_load : load := mkLoad [resp same_1000] (Thrown timeout).

(** A page at the site's root whose only anchor is [<a href="/">]: the first
    selector and the last one match it, no other selector does. *)
Definition root_anchor_page : document :=
  mkDocument site
    (fun selector =>
       if String.eqb selector "a[href='/']" || String.eqb selector "a[href*='/']"
       then [Some "/"] else []).

(** A page of another host, whose name begins like the site's, with the
    same single anchor. *)
Definition lookalike_page : document :=
  mkDocument "https://example.com.evil.org/"
    (fun selector =>
       if String.eqb selector "a[href='/']" || String.eqb selector "a[href*='/']"
       then [Some "/"] else []).

(** Loaded pages of the site: one whose anchors lead nowhere else, one with
    a link to "/about", and the latter below "/blog/". *)
Definition navigation_entry : timing := mkTiming 0 (12345 # 100) (2500 # 10).
Definition linked_page : page :=
  mkPage site (Some navigation_entry) 42 [Some "/"; Some "/about"].
Definition blog_page : page :=
  mkPage "https://example.com/blog/" (Some navigation_entry) 42 [Some "/"; Some "/about"].

(** The root page with a link written relative to it. *)
Definition relative_page : page :=
  mkPage site (Some navigation_entry) 42 [Some "/"; Some "about.html"].


(** An engine whose first visit of a run times out. *)
Definition first_visit_times_out (url name : string) (w : unit) : visit * unit :=
  (if String.eqb name "iter-1" then slow_visit else mkVisit [same_1000] (Normal linked_page), w).

Definition start : CsvRun.session := CsvRun.mkSession tt [].
Definition json_start : JsonRun.session := JsonRun.mkSession tt [].


(** The same engine on the page whose only anchor is [<a href="/">]. *)
Definition opens_root_anchor_page (url : string) (w : unit) : completion document * unit :=
  (Normal root_anchor_page, w).

(** A load that fails before anything is measured. *)
Definition unresolved_host : JS.error :=
  mkError "Error" "page.goto: net::ERR_NAME_NOT_RESOLVED".
Definition fails_to_load (url : string) (w : unit) : load * unit :=
  (mkLoad [] (Thrown unresolved_host), w).

(** Trial objects holding one metric. *)
Definition with_loadTime (val : value) : gmap string value :=
  <["loadTime" := val]> ∅.

End Sample.

(** ** The columns of the dataset variant's file *)
Module CsvFile.

(** The names in the first line of the CSV file, in order. *)
Definition header : list string := [
  "Dataset"; "Site URL"; "Actual Site URL";
  "DOMContentLoaded #1"; "DOMContentLoaded #2"; "DOMContentLoaded #3";
  "Page Load Time #1"; "Page Load Time #2"; "Page Load Time #3";
  "Total Transferred Bytes"; "Total Same-Origin Transferred Bytes";
  "Total Cross-Origin Transferred Bytes"; "Total Transferred Resources";
  "DOM Element Count"; "Other Page";
  "Other DOMContentLoaded Time #1"; "Other DOMContentLoaded Time #2";
  "Other DOMContentLoaded Time #3";
  "Other Page Load Time #1"; "Other Page Load Time #2"; "Other Page Load Time #3";
  "Other Total Transferred Bytes"; "Other Total Same-Origin Transferred Bytes";
  "Other Total Cross-Origin Transferred Bytes"; "Other Total Transferred Resources";
  "Other DOM Element Count"
].

End CsvFile.

(** ** The loop over the URLs in the variant recording every try *)
Module TriesRun.
Import JS Url Engine Browser.

(** The double quote put around the string cells of a row. *)
Definition quote : string := String (ascii_of_nat 34) EmptyString.
Definition quoted (s : string) : string := quote ++ s ++ quote.

Definition header : list string := [
  "URL"; "Try_Number"; "Measurement_Type"; "HomepageLinkFound_Site";
  "HomepageLinkHref_Identified"; "DOMContentLoadedTime_ms"; "LoadTime_ms";
  "PageLoadApiTime_ms"; "DOMContentLoadedApiTime_ms"; "PageSize_Bytes";
  "PageSize_MB"; "DOMElementCount"
].

(** The array joined into one line of the file after a try; [i] is the loop
    index, the row shows [i + 1]. *)
Definition dataRow (url : string) (i : nat) (measurement : string)
    (homepageLinkFoundOverall : bool) (identifiedHomepageHref : string)
    (metrics : gmap string value) : list value :=
  [ VStr (quoted url);
    VNum (inject_Z (Z.of_nat i + 1));
    VStr (quoted measurement);
    VBool homepageLinkFoundOverall;
    VStr (quoted identifiedHomepageHref);
    Averages.prop metrics "domContentLoadedTime_ms";
    Averages.prop metrics "loadTime_ms";
    Averages.prop metrics "pageLoadApiTime_ms";
    Averages.prop metrics "domContentLoadedApiTime_ms";
    Averages.prop metrics "pageSize_Bytes";
    Averages.prop metrics "pageSize_MB";
    Averages.prop metrics "domElementCount" ].

(** The row written for a navigation that is not attempted. *)
Definition skipped_row (url : string) (i : nat)
    (homepageLinkFoundOverall : bool) (identifiedHomepageHref : string) : list value :=
  [ VStr (quoted url);
    VNum (inject_Z (Z.of_nat i + 1));
    VStr (quoted "Homepage Navigation");
    VBool homepageLinkFoundOverall;
    VStr (quoted identifiedHomepageHref);
    VStr "N/A"; VStr "N/A"; VStr "N/A"; VStr "N/A"; VStr "N/A"; VStr "N/A"; VStr "N/A" ].

(** [findHomepageLinkOnce] and the block that calls it are the same text in
    both variants: [Averages.identify] is used for it.  [page_load target w]
    is what the engine lets [getPageLoadMetrics(page, target)] observe. *)
Section Run.
Context `{Api} {W : Type}
  (link_page : string -> W -> completion document * W)
  (page_load : string -> W -> load * W).

(** Either [for] loop over the tries: the objects pushed and the rows
    appended, in order. *)
Fixpoint measured_tries (url target measurement : string)
    (homepageLinkFoundOverall : bool) (identifiedHomepageHref : string)
    (turns : list nat) (w : W) : (list (gmap string value) * list (list value)) * W :=
  match turns with
  | [] => (([], []), w)
  | i :: rest =>
      let '(l, w1) := page_load target w in
      let metrics := Tries.one_try l in
      let row := dataRow url i measurement homepageLinkFoundOverall identifiedHomepageHref metrics in
      let '((more, rows), w2) :=
        measured_tries url target measurement homepageLinkFoundOverall identifiedHomepageHref rest w1 in
      ((metrics :: more, row :: rows), w2)
  end.

Record site := mkSite {
  identifiedHomepageHref : string;
  homepageLinkFoundOverall : bool;
  initialLoadMetricsOverTries : list (gmap string value);
  homepageNavigationMetricsOverTries : list (gmap string value);
  rows : list (list value)
}.

(** One turn of the loop over [urlsToTest]: the link is looked for first,
    then the initial loads, then the navigations to the link or the rows
    standing for them. *)
Definition process_url (url : string) (w : W) : site * W :=
  let '(linkResult, w1) := Averages.identify link_page url w in
  let '((initials, initial_rows), w2) :=
    measured_tries url url "Initial Load" (Averages.found linkResult)
      (Averages.href linkResult) Averages.tries w1 in
  let '((navigations, navigation_rows), w3) :=
    if Averages.found linkResult
    then measured_tries url (Averages.href linkResult) "Homepage Navigation"
           (Averages.found linkResult) (Averages.href linkResult) Averages.tries w2
    else (([], map (fun i => skipped_row url i (Averages.found linkResult)
                               (Averages.href linkResult)) Averages.tries), w2) in
  ({| identifiedHomepageHref := Averages.href linkResult;
      homepageLinkFoundOverall := Averages.found linkResult;
      initialLoadMetricsOverTries := initials;
      homepageNavigationMetricsOverTries := navigations;
      rows := (initial_rows ++ navigation_rows)%list |}, w3).

(** The rows of a whole run, in the order they are appended. *)
Fixpoint run (urlsToTest : list string) (w : W) : list (list value) * W :=
  match urlsToTest with
  | [] => ([], w)
  | url :: rest =>
      let '(s, w1) := process_url url w in
      let '(more, w2) := run rest w1 in
      ((rows s ++ more)%list, w2)
  end.

End Run.
End TriesRun.

(** * Notions used in the statements *)

Import JS Url Engine PageMetrics.
Close Scope string_scope.

(** A response in the 2xx range. *)
Definition successful (r : response) : Prop := 200 <= status r <= 299.

(** The byte count of a response: the value of its content-length header when
    it has one, otherwise the length of its materialized body. *)
Definition bytes_of (r : response) : option Z :=
  match content_length r with
  | Some contentLength =>
      match parseInt contentLength with
      | Num n => Some n
      | NaN => None
      end
  | None =>
      match body r with
      | Normal buffer => Some (Z.of_nat buffer)
      | Thrown _ => None
      end
  end.

(** Same-origin: the host name of the response's URL is that of the visit's
    starting URL. *)
Definition same_origin `{Api} (url : string) (r : response) : bool :=
  match parse (response_url r), parse url with
  | Some a, Some b => String.eqb (hostname a) (hostname b)
  | _, _ => false
  end.

Definition cross_origin `{Api} (url : string) (r : response) : bool :=
  negb (same_origin url r).

Definition countable `{Api} (r : response) : Prop :=
  successful r /\ is_Some (bytes_of r) /\ is_Some (parse (response_url r)).

Fixpoint total_bytes (rs : list response) : Z :=
  match rs with
  | [] => 0
  | r :: rest => default 0 (bytes_of r) + total_bytes rest
  end.










(** Every field of the object holds the sentinel [s]. *)
Definition every_field (t : trial) (s : string) : Prop :=
  pageLoadTime_ms t = VStr s /\ domContentLoadedTime_ms t = VStr s /\
  totalTransferred_bytes t = VStr s /\ totalSameOriginTransferred_bytes t = VStr s /\
  totalCrossOriginTransferred_bytes t = VStr s /\
  PageMetrics.totalTransferredResources t = VStr s /\
  domElementCount t = VStr s /\ actualPage t = s /\ otherPage t = s.

(** The fields that are no byte or resource counter hold the sentinel [s]. *)
Definition unmeasured_fields (t : trial) (s : string) : Prop :=
  pageLoadTime_ms t = VStr s /\ domContentLoadedTime_ms t = VStr s /\
  domElementCount t = VStr s /\ actualPage t = s /\ otherPage t = s.

(** The four counter fields hold the counters [c]. *)
Definition counter_fields (t : trial) (c : CsvRun.counters) : Prop :=
  totalTransferred_bytes t = of_number (CsvRun.totalTransferredBytes c) /\
  totalSameOriginTransferred_bytes t = of_number (CsvRun.totalSameOriginTransferredBytes c) /\
  totalCrossOriginTransferred_bytes t = of_number (CsvRun.totalCrossOriginTransferredBytes c) /\
  PageMetrics.totalTransferredResources t = VNum (inject_Z (CsvRun.totalTransferredResources c)).

Definition sentinel_of (e : JS.error) : string :=
  if String.eqb (JS.name e) "TimeoutError" then "DNF" else "N/A".

(** The values of the metric that are genuine numbers, in trial order. *)
Fixpoint numbers_of (metricsArray : list (gmap string value)) (metricName : string) : list Q :=
  match metricsArray with
  | [] => []
  | m :: rest =>
      match Averages.prop m metricName with
      | VNum q => q :: numbers_of rest metricName
      | _ => numbers_of rest metricName
      end
  end.

Definition mean (l : list Q) : Q :=
  (fold_right Qplus 0 l / inject_Z (Z.of_nat (List.length l)))%Q.

(** [q] has two decimals and lies within half a hundredth of [x]. *)
Definition rounded_to_hundredths (q x : Q) : Prop :=
  (exists n : Z, q == n # 100)%Q /\ (Qabs (q - x) <= 1 # 200)%Q.

(** The object standing for a navigation that was not attempted. *)
Definition placeholder : gmap string value :=
  <["homepageLinkFound" := VBool false]> (<["homepageLinkClickTime" := VStr "N/A"]> ∅).

(** The metrics [getInitialPageLoadMetrics] returns, by name. *)
Definition initial_metric_names : list string :=
  [ "domContentLoadedTime"; "loadTime"; "pageLoadApiTime"; "domContentLoadedApiTime";
    "totalTransferredBytes"; "totalTransferredMB"; "domElementCount" ]%string.

(** The status filter of the handlers: [false] where they [return]. *)
Definition passes (r : response) : bool :=
  negb ((status r <? 200) || (400 <=? status r)).

(** The total is the sum of the two buckets, as JavaScript adds them. *)
Definition csv_balanced (c : CsvRun.counters) : Prop :=
  CsvRun.totalTransferredBytes c =
  add (CsvRun.totalSameOriginTransferredBytes c) (CsvRun.totalCrossOriginTransferredBytes c).

Definition json_balanced (c : JsonRun.counters) : Prop :=
  JsonRun.totalTransferredBytes c =
  add (JsonRun.totalSameOriginTransferredBytes c) (JsonRun.totalCrossOriginTransferredBytes c).


(** A summary has three trials of the index page and none or three of the
    other page. *)
Definition csv_well_formed (d : CsvRun.pageData) : Prop :=
  List.length (CsvRun.metrics d) = 3%nat
  /\ (CsvRun.otherMetrics d = [] \/ List.length (CsvRun.otherMetrics d) = 3%nat).

Definition json_well_formed (d : JsonRun.pageData) : Prop :=
  List.length (JsonRun.metrics d) = 3%nat
  /\ (JsonRun.otherMetrics d = [] \/ List.length (JsonRun.otherMetrics d) = 3%nat).

(** The pairs of dataset name and site URL of the input, in order. *)
Definition targets (datasets : list (string * list string)) : list (string * string) :=
  flat_map (fun dataset => map (pair (fst dataset)) (snd dataset)) datasets.

(** What the finder's two variables hold together: a link that starts with
    the origin it compares with, or the sentinel. *)
Definition finder_ok (currentDomain : string) (st : Averages.finder) : Prop :=
  if Averages.linkFound st
  then startsWith (Averages.foundHref st) currentDomain = true
  else Averages.foundHref st = "N/A"%string.


(** An integer that a double holds exactly, with its neighbours
    ([Number.isSafeInteger]). *)
Definition safe_integer (z : Z) : Prop := - (2 ^ 53 - 1) <= z <= 2 ^ 53 - 1.

(** The text JavaScript gives a non-negative integer: its decimal digits. *)
Definition decimal (n : nat) : string :=
  DecimalString.NilEmpty.string_of_uint (Nat.to_uint n).

(** A cell that is written as a value: reading a property the object lacks
    gives [undefined]. *)
Definition defined (v : value) : Prop := v <> VUndefined.

(** A line of the file of individual tries: as many cells as the header has
    names, none of them undefined, the first five as given. *)
Definition tries_row (url : string) (try_number : Z) (measurement : string)
    (found : bool) (href : string) (row : list value) : Prop :=
  List.length row = List.length TriesRun.header
  /\ Forall defined row
  /\ firstn 5 row =
     [ VStr (TriesRun.quoted url); VNum (inject_Z try_number);
       VStr (TriesRun.quoted measurement); VBool found; VStr (TriesRun.quoted href) ].

(** A row standing for a navigation that was not attempted. *)
Definition all_not_available (row : list value) : Prop :=
  skipn 5 row = repeat (VStr "N/A"%string) 7.

Definition number_or_NA (v : value) : Prop :=
  (exists q, v = VNum q) \/ v = VStr "N/A"%string.

(** * Properties *)


Ltac run_js :=
  unfold try_catch, bind, ret, lift, get, put, modify, throw, and_then in *; simpl in *.

(** Case analysis on the innermost scrutinee of the goal, repeatedly. *)
Ltac split_matches :=
  repeat match goal with
         | |- context [match ?x with _ => _ end] =>
             lazymatch x with
             | context [match _ with _ => _ end] => fail
             | _ => destruct x eqn:?; simpl
             end
         end.

(** ** Failed and error statuses *)




(** ** Accounting of successful responses *)

Lemma status_not_redirect (s : Z) :
  s <= 300 -> (301 <=? s) && (s <=? 399) = false.
Proof. intros. destruct (Z.leb_spec 301 s); [lia | reflexivity]. Qed.

Lemma status_passes (s : Z) :
  200 <= s < 400 -> (s <? 200) || (400 <=? s) = false.
Proof.
  intros. destruct (Z.ltb_spec s 200), (Z.leb_spec 400 s); simpl; try reflexivity; lia.
Qed.

Lemma parseInt_truthy (s : string) (n : Z) : parseInt s = Num n -> truthy s = true.
Proof. destruct s; [discriminate | reflexivity]. Qed.

Lemma csv_handle_success `{Api} (url : string) (u : URL) (ev : event) (n t s c k : Z) (fl : bool) :
  parse url = Some u ->
  countable (resp ev) ->
  bytes_of (resp ev) = Some n ->
  CsvRun.handle url (CsvRun.mkCounters (Num t) (Num s) (Num c) k fl) ev =
  CsvRun.mkCounters (Num (t + n))
    (Num (if same_origin url (resp ev) then s + n else s))
    (Num (if same_origin url (resp ev) then c else c + n))
    (k + 1) fl.
Proof.
  intros Hu (Hs & _ & [ru Hru]) Hn. unfold successful in Hs.
  unfold CsvRun.handle, CsvRun.on_response, CsvRun.redirect_found,
    CsvRun.account, CsvRun.add_total, CsvRun.add_same, CsvRun.add_cross,
    CsvRun.count_resource, same_origin, new_URL.
  rewrite Hu, Hru. run_js.
  rewrite status_not_redirect by lia. simpl.
  rewrite status_passes by lia.
  unfold bytes_of in Hn.
  destruct (content_length (resp ev)) as [cl|].
  - destruct (parseInt cl) as [m|] eqn:Hp; [|discriminate].
    rewrite (parseInt_truthy _ _ Hp). injection Hn as ->.
    destruct (String.eqb (hostname ru) (hostname u)); reflexivity.
  - destruct (body (resp ev)) as [len|]; [|discriminate].
    injection Hn as <-.
    destruct (String.eqb (hostname ru) (hostname u)); reflexivity.
Qed.

Lemma json_handle_success `{Api} (url : string) (u : URL) (r : response) (n t s c k : Z) :
  parse url = Some u ->
  countable r ->
  bytes_of r = Some n ->
  JsonRun.handle url (JsonRun.mkCounters (Num t) (Num s) (Num c) k) r =
  JsonRun.mkCounters (Num (t + n))
    (Num (if same_origin url r then s + n else s))
    (Num (if same_origin url r then c else c + n))
    (k + 1).
Proof.
  intros Hu (Hs & _ & [ru Hru]) Hn. unfold successful in Hs.
  unfold JsonRun.handle, JsonRun.on_response,
    JsonRun.account, JsonRun.add_total, JsonRun.add_same, JsonRun.add_cross,
    JsonRun.count_resource, same_origin, new_URL.
  rewrite Hu, Hru. run_js.
  rewrite status_passes by lia.
  unfold bytes_of in Hn.
  destruct (content_length r) as [cl|].
  - destruct (parseInt cl) as [m|] eqn:Hp; [|discriminate].
    rewrite (parseInt_truthy _ _ Hp). injection Hn as ->.
    destruct (String.eqb (hostname ru) (hostname u)); reflexivity.
  - destruct (body r) as [len|]; [|discriminate].
    injection Hn as <-.
    destruct (String.eqb (hostname ru) (hostname u)); reflexivity.
Qed.

Ltac counters_eq :=
  f_equal; unfold id; first [lia | apply (f_equal Num); lia].

Lemma total_bytes_filter_cons (P : response -> bool) (r : response) (rs : list response) :
  total_bytes (List.filter P (r :: rs)) =
  (if P r then default 0 (bytes_of r) else 0) + total_bytes (List.filter P rs).
Proof. simpl. destruct (P r); reflexivity. Qed.

Lemma csv_fold_success `{Api} (url : string) (u : URL) (evs : list event) :
  parse url = Some u ->
  Forall countable (map resp evs) ->
  forall (t s c k : Z) (fl : bool),
    fold_left (CsvRun.handle url) evs (CsvRun.mkCounters (Num t) (Num s) (Num c) k fl) =
    CsvRun.mkCounters
      (Num (t + total_bytes (map resp evs)))
      (Num (s + total_bytes (List.filter (same_origin url) (map resp evs))))
      (Num (c + total_bytes (List.filter (cross_origin url) (map resp evs))))
      (k + Z.of_nat (List.length evs)) fl.
Proof.
  intros Hu. induction evs as [|ev evs IH]; intros Hall t s c k fl.
  - simpl. counters_eq.
  - inversion Hall as [|? ? Hev Hrest]; subst.
    destruct Hev as (Hs & [n Hn] & Hp).
    cbn [fold_left map].
    rewrite (csv_handle_success url u ev n); [|assumption|split; [exact Hs|split; [eauto|exact Hp]]|assumption].
    rewrite (IH Hrest).
    rewrite !total_bytes_filter_cons. cbn [total_bytes].
    unfold cross_origin. rewrite Hn. cbn [default from_option].
    destruct (same_origin url (resp ev)); cbn [negb List.length]; counters_eq.
Qed.

Lemma json_fold_success `{Api} (url : string) (u : URL) (rs : list response) :
  parse url = Some u ->
  Forall countable rs ->
  forall (t s c k : Z),
    fold_left (JsonRun.handle url) rs (JsonRun.mkCounters (Num t) (Num s) (Num c) k) =
    JsonRun.mkCounters
      (Num (t + total_bytes rs))
      (Num (s + total_bytes (List.filter (same_origin url) rs)))
      (Num (c + total_bytes (List.filter (cross_origin url) rs)))
      (k + Z.of_nat (List.length rs)).
Proof.
  intros Hu. induction rs as [|r rs IH]; intros Hall t s c k.
  - simpl. counters_eq.
  - inversion Hall as [|? ? Hev Hrest]; subst.
    destruct Hev as (Hs & [n Hn] & Hp).
    cbn [fold_left].
    rewrite (json_handle_success url u r n); [|assumption|split; [exact Hs|split; [eauto|exact Hp]]|assumption].
    rewrite (IH Hrest).
    rewrite !total_bytes_filter_cons. cbn [total_bytes].
    unfold cross_origin. rewrite Hn. cbn [default from_option].
    destruct (same_origin url r); cbn [negb List.length]; counters_eq.
Qed.

(** C1: over a visit whose responses all have a 2xx status and a byte count
    (the content-length value when the header is present, otherwise the body
    length), the handler's total is the sum of the byte counts, the
    same-origin and cross-origin buckets are the sums over the responses
    whose host name equals, respectively differs from, that of the starting
    URL, and the resource counter is the number of responses.  This holds for
    the handler of the dataset variant and for that of the JSON variant. *)
Theorem C1_byte_accountant_sums `{Api} (url : string) (u : URL) (evs : list event) :
  parse url = Some u ->
  Forall countable (map resp evs) ->
  CsvRun.observe url evs =
    CsvRun.mkCounters
      (Num (total_bytes (map resp evs)))
      (Num (total_bytes (List.filter (same_origin url) (map resp evs))))
      (Num (total_bytes (List.filter (cross_origin url) (map resp evs))))
      (Z.of_nat (List.length evs)) false
  /\ JsonRun.observe url evs =
    JsonRun.mkCounters
      (Num (total_bytes (map resp evs)))
      (Num (total_bytes (List.filter (same_origin url) (map resp evs))))
      (Num (total_bytes (List.filter (cross_origin url) (map resp evs))))
      (Z.of_nat (List.length evs)).
Proof.
  intros Hu Hall. split.
  - unfold CsvRun.observe, CsvRun.fresh.
    rewrite (csv_fold_success url u evs Hu Hall). reflexivity.
  - unfold JsonRun.observe, JsonRun.fresh.
    rewrite (json_fold_success url u (map resp evs) Hu Hall).
    rewrite length_map. reflexivity.
Qed.

(** The responses [1000 same-origin; 2000 cross-origin] give total 3000,
    same-origin 1000, cross-origin 2000 and two resources. *)
Lemma C1_two_responses :
  CsvRun.observe (H:=basic) Sample.site [Sample.same_1000; Sample.cross_2000] =
    CsvRun.mkCounters (Num 3000) (Num 1000) (Num 2000) 2 false
  /\ JsonRun.observe (H:=basic) Sample.site [Sample.same_1000; Sample.cross_2000] =
    JsonRun.mkCounters (Num 3000) (Num 1000) (Num 2000) 2.
Proof.
  refine (C1_byte_accountant_sums (H:=basic) Sample.site
            (mkURL "https://example.com/" "https://example.com" "example.com" "/")
            [Sample.same_1000; Sample.cross_2000] eq_refl _).
  repeat constructor; simpl; try lia; eexists; reflexivity.
Defined.

(** ** The reset on a redirect (dataset variant) *)

Lemma status_redirect (s : Z) : 301 <= s <= 399 -> (301 <=? s) && (s <=? 399) = true.
Proof.
  intros. destruct (Z.leb_spec 301 s), (Z.leb_spec s 399); simpl; try reflexivity; lia.
Qed.

Lemma String_eqb_neq (a b : string) : a <> b -> String.eqb a b = false.
Proof. intros. apply String.eqb_neq. assumption. Qed.








(** In the JSON variant the counters are zeroed in the [catch] branch. *)
Lemma json_handle_unavailable_body `{Api} (url : string) (st : JsonRun.counters)
    (r : response) (e : JS.error) :
  200 <= status r < 400 ->
  content_length r = None ->
  body r = Thrown e ->
  includes (message e) JsonRun.redirect_message = true ->
  JsonRun.handle url st r = JsonRun.fresh.
Proof.
  intros Hs Hcl Hb Hmsg.
  unfold JsonRun.handle, JsonRun.on_response. run_js.
  rewrite (status_passes _ Hs), Hcl, Hb, Hmsg. reflexivity.
Qed.

Section Scheduling.
Context `{Api} (url : string).



















End Scheduling.





(** ** The statuses that count *)








(** ** Failed trials *)

(** C3 (amended): when the navigation fails, the JSON variant and the variant
    recording every try fill every field with "DNF" on a timeout and with
    "N/A" on any other error; the dataset variant fills every field with "N/A"
    on an error that is no timeout, and on a timeout fills the timing, element
    count, resolved URL and link fields with "DNF" while the four byte and
    resource fields hold the counters accumulated up to then. *)
Theorem C3_failed_navigation_fields `{Api} (url name : string) (u : URL) (v : visit)
    (l : Browser.load) (e : JS.error) :
  parse url = Some u ->
  outcome v = Thrown e ->
  Browser.finished l = Thrown e ->
  (exists t, JsonRun.getPageMetrics url name v = Normal t /\ every_field t (sentinel_of e))
  /\ (forall k, In k Tries.metric_names -> Tries.one_try l !! k = Some (VStr (sentinel_of e)))
  /\ (exists t, CsvRun.getPageMetrics url name v = Normal t
        /\ unmeasured_fields t (sentinel_of e)
        /\ (JS.name e <> "TimeoutError"%string -> every_field t "N/A")
        /\ (JS.name e = "TimeoutError"%string ->
            counter_fields t (CsvRun.observe url (events v)))).
Proof.
  intros Hu Hv Hl. unfold sentinel_of.
  repeat split.
  - unfold JsonRun.getPageMetrics, new_URL. rewrite Hu, Hv. simpl.
    destruct (String.eqb (JS.name e) "TimeoutError"); eexists; split;
      try reflexivity; repeat split.
  - intros k Hk. unfold Tries.one_try, Tries.getPageLoadMetrics. rewrite Hl. simpl.
    unfold Tries.failed.
    destruct (String.eqb (JS.name e) "TimeoutError");
      simpl in Hk; repeat (destruct Hk as [<-|Hk]; [reflexivity|]); contradiction.
  - unfold CsvRun.getPageMetrics, new_URL. rewrite Hu, Hv. simpl.
    destruct (String.eqb_spec (JS.name e) "TimeoutError") as [Heq|Hne];
      eexists; (split; [reflexivity|]); repeat split; try contradiction;
      intros Heq'; congruence.
Qed.

(** A navigation that times out after 1000 bytes were counted. *)
Lemma C3_timeout_after_one_response :
  (exists t, JsonRun.getPageMetrics (H:=basic) Sample.site "iter-1" Sample.slow_visit = Normal t
             /\ every_field t "DNF")
  /\ Tries.one_try Sample.slow_load !! "pageSize_Bytes"%string = Some (VStr "DNF")
  /\ (exists t, CsvRun.getPageMetrics (H:=basic) Sample.site "iter-1" Sample.slow_visit = Normal t
             /\ unmeasured_fields t "DNF"
             /\ counter_fields t (CsvRun.mkCounters (Num 1000) (Num 1000) (Num 0) 1 false)).
Proof.
  destruct (C3_failed_navigation_fields (H:=basic) Sample.site "iter-1"
              (mkURL "https://example.com/" "https://example.com" "example.com" "/")
              Sample.slow_visit Sample.slow_load Sample.timeout eq_refl eq_refl eq_refl)
    as (Hjson & Htries & t & Ht & Hun & _ & Hcount).
  split; [exact Hjson|]. split.
  - apply Htries. simpl. tauto.
  - exists t. split; [exact Ht|]. split; [exact Hun|]. exact (Hcount eq_refl).
Defined.

(** C3 as stated fails: in the dataset variant a trial that timed out keeps
    the bytes and resources counted before the timeout. *)
Lemma C3_timeout_keeps_counted_bytes :
  exists t,
    CsvRun.getPageMetrics (H:=basic) Sample.site "iter-1" Sample.slow_visit = Normal t
    /\ JS.name Sample.timeout = "TimeoutError"%string
    /\ totalTransferred_bytes t = VNum 1000
    /\ totalSameOriginTransferred_bytes t = VNum 1000
    /\ PageMetrics.totalTransferredResources t = VNum 1
    /\ totalTransferred_bytes t <> VStr "DNF".
Proof.
  eexists. split; [reflexivity|]. repeat split. discriminate.
Qed.

(** ** The aggregate of a metric *)

Lemma Qmake_hundredths (n : Z) : (n # 100 == inject_Z n * (1 # 100))%Q.
Proof. unfold Qeq, Qmult, inject_Z. simpl. lia. Qed.

Lemma toFixed2_rounds (x : Q) : rounded_to_hundredths (toFixed2 x) x.
Proof.
  unfold rounded_to_hundredths, toFixed2.
  set (n := Qfloor (Qabs x * 100 + (1 # 2))).
  assert (Hlo : (inject_Z n <= Qabs x * 100 + (1 # 2))%Q) by apply Qfloor_le.
  assert (Hhi : (Qabs x * 100 + (1 # 2) < inject_Z (n + 1))%Q) by apply Qlt_floor.
  rewrite inject_Z_plus in Hhi. change (inject_Z 1) with 1%Q in Hhi. clearbody n.
  destruct (Qle_bool 0 x) eqn:Hsign.
  - apply Qle_bool_iff in Hsign.
    rewrite (Qabs_pos x Hsign) in Hlo, Hhi.
    split; [exists n; apply Qred_correct|].
    rewrite Qred_correct, Qmake_hundredths.
    apply Qabs_Qle_condition. split; lra.
  - assert (Hneg : (x <= 0)%Q).
    { destruct (Qlt_le_dec x 0) as [Hlt|Hge]; [apply Qlt_le_weak, Hlt|].
      apply Qle_bool_iff in Hge. congruence. }
    rewrite (Qabs_neg x Hneg) in Hlo, Hhi.
    split; [exists (- n)%Z; apply Qred_correct|].
    rewrite Qred_correct, Qmake_hundredths, inject_Z_opp.
    apply Qabs_Qle_condition. split; lra.
Qed.

Lemma rounded_to_hundredths_proper (q x y : Q) :
  (x == y)%Q -> rounded_to_hundredths q x -> rounded_to_hundredths q y.
Proof. intros Hxy [Hn Hd]. split; [exact Hn|]. rewrite <- Hxy. exact Hd. Qed.

Lemma numbers_of_filter (metricsArray : list (gmap string value)) (metricName : string) :
  omap Averages.as_number (map (fun m => Averages.prop m metricName) metricsArray) =
  numbers_of metricsArray metricName.
Proof.
  induction metricsArray as [|m rest IH]; [reflexivity|].
  simpl. rewrite <- IH.
  destruct (Averages.prop m metricName); reflexivity.
Qed.

Lemma fold_left_Qplus (l : list Q) :
  forall acc : Q, (fold_left (fun a v => a + v) l acc == acc + fold_right Qplus 0 l)%Q.
Proof.
  induction l as [|v l IH]; intros acc; simpl.
  - lra.
  - rewrite IH. lra.
Qed.

Lemma any_true_count (metricsArray : list (gmap string value)) (metricName : string) :
  (0 <? List.length (List.filter (fun m => Averages.is_true (Averages.prop m metricName)) metricsArray))%nat = true
  <-> exists m, In m metricsArray /\ Averages.prop m metricName = VBool true.
Proof.
  rewrite Nat.ltb_lt. split.
  - intros Hlen.
    destruct (List.filter _ metricsArray) as [|m rest] eqn:Hf; [simpl in Hlen; lia|].
    assert (Hin : In m (List.filter (fun m => Averages.is_true (Averages.prop m metricName)) metricsArray))
      by (rewrite Hf; left; reflexivity).
    apply filter_In in Hin as [Hin Ht]. exists m. split; [exact Hin|].
    destruct (Averages.prop m metricName) as [| | |[|]|]; try discriminate. reflexivity.
  - intros (m & Hin & Hm).
    assert (Hfin : In m (List.filter (fun m => Averages.is_true (Averages.prop m metricName)) metricsArray)).
    { apply filter_In. split; [exact Hin|]. rewrite Hm. reflexivity. }
    destruct (List.filter _ metricsArray); [contradiction|simpl; lia].
Qed.

(** C5 (amended): for a metric name other than [homepageLinkFound], the
    aggregate is "N/A" when no trial holds a genuine number for the metric,
    and otherwise the arithmetic mean of the genuine numbers rounded to two
    decimals; for [homepageLinkFound] it is [true] exactly when some trial
    holds [true]. *)
Theorem C5_average_rounded_to_two_decimals
    (metricsArray : list (gmap string value)) (metricName : string) :
  metricName <> "homepageLinkFound"%string ->
  (numbers_of metricsArray metricName = [] ->
   Averages.calculateAverage metricsArray metricName = VStr "N/A")
  /\ (numbers_of metricsArray metricName <> [] ->
      exists q, Averages.calculateAverage metricsArray metricName = VNum q
                /\ rounded_to_hundredths q (mean (numbers_of metricsArray metricName)))
  /\ (exists b, Averages.calculateAverage metricsArray "homepageLinkFound" = VBool b
                /\ (b = true <->
                    exists m, In m metricsArray
                              /\ Averages.prop m "homepageLinkFound" = VBool true)).
Proof.
  intros Hname. unfold Averages.calculateAverage.
  rewrite (String_eqb_neq _ _ Hname), numbers_of_filter.
  repeat split.
  - intros ->. reflexivity.
  - intros Hne.
    destruct (numbers_of metricsArray metricName) as [|v vs] eqn:Hvals; [contradiction|].
    cbn [List.length Nat.eqb]. eexists. split; [reflexivity|].
    eapply rounded_to_hundredths_proper; [|apply toFixed2_rounds].
    unfold mean. rewrite fold_left_Qplus, Qplus_0_l. reflexivity.
  - eexists. split; [reflexivity|]. apply any_true_count.
Qed.

(** Trials [100; 200; "DNF"] average to 150, trials ["N/A"; "DNF"] to "N/A". *)
Lemma C5_sentinels_left_out :
  Averages.calculateAverage
    [Sample.with_loadTime (VNum 100); Sample.with_loadTime (VNum 200);
     Sample.with_loadTime (VStr "DNF")] "loadTime" = VNum 150
  /\ Averages.calculateAverage
       [Sample.with_loadTime (VStr "N/A"); Sample.with_loadTime (VStr "DNF")] "loadTime" =
     VStr "N/A".
Proof.
  split; [reflexivity|].
  apply (C5_average_rounded_to_two_decimals
           [Sample.with_loadTime (VStr "N/A"); Sample.with_loadTime (VStr "DNF")] "loadTime").
  - discriminate.
  - reflexivity.
Defined.

(** C5 as stated fails: trials [1; 2; 2] average to 1.67, which is not their
    arithmetic mean 5/3. *)
Lemma C5_mean_of_1_2_2_is_rounded :
  Averages.calculateAverage
    [Sample.with_loadTime (VNum 1); Sample.with_loadTime (VNum 2);
     Sample.with_loadTime (VNum 2)] "loadTime" = VNum (167 # 100)
  /\ numbers_of
       [Sample.with_loadTime (VNum 1); Sample.with_loadTime (VNum 2);
        Sample.with_loadTime (VNum 2)] "loadTime" = [1; 2; 2]%Q
  /\ ~ (167 # 100 == mean [1; 2; 2])%Q.
Proof.
  repeat split. unfold mean, Qeq. simpl. lia.
Qed.

(** ** The link heuristic *)



Lemma try_selectors_step `{Api} (currentDomain : string) (page : Browser.document)
    (selector : string) (rest : list string) (st : Averages.finder) :
  Averages.try_selectors currentDomain page (selector :: rest) st =
  (let queried := Averages.mkFinder (Averages.foundHref st) (Averages.linkFound st)
                    (Averages.queried st ++ [selector]) in
   if (0 <? List.length (Browser.locate page selector))%nat
   then match Averages.try_anchors currentDomain (Browser.document_url page)
                (Browser.locate page selector) queried with
        | (Normal _, st') =>
            if Averages.confident currentDomain st' then (Normal tt, st')
            else Averages.try_selectors currentDomain page rest st'
        | (Thrown e, st') => (Thrown e, st')
        end
   else Averages.try_selectors currentDomain page rest queried).
Proof.
  cbn [Averages.try_selectors]. unfold bind, Averages.query, modify, get, ret.
  destruct (0 <? List.length (Browser.locate page selector))%nat; [|reflexivity].
  destruct (Averages.try_anchors _ _ _ _) as [[[]|e] st']; [|reflexivity].
  destruct (Averages.confident currentDomain st'); reflexivity.
Qed.

Section Finder.
Context `{Api}.

Lemma try_anchor_ok (currentDomain page_url : string) (attr : option string)
    (st : Averages.finder) :
  finder_ok currentDomain st ->
  finder_ok currentDomain (snd (Averages.try_anchor currentDomain page_url attr st)).
Proof.
  intros Hst. unfold Averages.try_anchor, Averages.accept. run_js.
  unfold finder_ok in *.
  split_matches; first [assumption | discriminate | congruence].
Qed.

Lemma try_anchors_ok (currentDomain page_url : string) (attrs : list (option string)) :
  forall st, finder_ok currentDomain st ->
             finder_ok currentDomain (snd (Averages.try_anchors currentDomain page_url attrs st)).
Proof.
  induction attrs as [|attr rest IH]; intros st Hst; [exact Hst|].
  cbn [Averages.try_anchors]. unfold bind.
  pose proof (try_anchor_ok currentDomain page_url attr st Hst) as Hone.
  destruct (Averages.try_anchor currentDomain page_url attr st) as [[[|]|e] st1];
    cbn [snd] in *; try exact Hone.
  apply IH, Hone.
Qed.

Lemma try_selectors_ok (currentDomain : string) (page : Browser.document)
    (selectors : list string) :
  forall st, finder_ok currentDomain st ->
             finder_ok currentDomain (snd (Averages.try_selectors currentDomain page selectors st)).
Proof.
  induction selectors as [|selector rest IH]; intros st Hst; [exact Hst|].
  rewrite try_selectors_step. cbv zeta.
  set (asked := Averages.mkFinder _ _ _).
  assert (Hasked : finder_ok currentDomain asked) by exact Hst.
  destruct (0 <? List.length (Browser.locate page selector))%nat; [|apply IH, Hasked].
  pose proof (try_anchors_ok currentDomain (Browser.document_url page)
                (Browser.locate page selector) asked Hasked) as Hin.
  destruct (Averages.try_anchors _ _ _ asked) as [[[]|e] st1]; cbn [snd] in *; [|exact Hin].
  destruct (Averages.confident currentDomain st1); [exact Hin|apply IH, Hin].
Qed.



Lemma find_link_ok (page : Browser.document) (initialUrl : string) :
  match parse initialUrl with
  | Some u => finder_ok (origin u) (Averages.find_link page initialUrl)
  | None => Averages.find_link page initialUrl = Averages.mkFinder "N/A" false []
  end.
Proof.
  unfold Averages.find_link, new_URL.
  destruct (parse initialUrl) as [u|]; [|reflexivity].
  unfold try_catch, bind, lift.
  pose proof (try_selectors_ok (origin u) page Averages.homepageSelectors
                (Averages.mkFinder "N/A" false []) eq_refl) as Hok.
  destruct (Averages.try_selectors (origin u) page Averages.homepageSelectors
              (Averages.mkFinder "N/A" false [])) as [[[]|e] st]; exact Hok.
Qed.

End Finder.




(** ** The driver of the dataset variant *)

Lemma csv_getPageMetrics_returns `{Api} (url name : string) (u : URL) (v : visit) :
  parse url = Some u ->
  exists t, CsvRun.getPageMetrics url name v = Normal t.
Proof.
  intros Hu. unfold CsvRun.getPageMetrics, new_URL. rewrite Hu. simpl.
  destruct (and_then (outcome v) (CsvRun.measured (CsvRun.observe url (events v)))) as [t|e].
  - exists t. reflexivity.
  - destruct (String.eqb (JS.name e) "TimeoutError"); eexists; reflexivity.
Qed.

Section CsvDriver.
Context `{Api} {W : Type} (browse : string -> string -> W -> visit * W).

Lemma csv_repeat_trials_run (url prefix : string) (u : URL) :
  parse url = Some u ->
  forall (labels : list string) (s : CsvRun.session),
  exists (ts : list trial) (s' : CsvRun.session),
    CsvRun.repeat_trials browse url prefix labels s = (Normal ts, s')
    /\ List.length ts = List.length labels
    /\ CsvRun.calls s' = CsvRun.calls s ++ map (fun i => (url, prefix +:+ i)) labels.
Proof.
  intros Hu. induction labels as [|i rest IH]; intros s.
  - exists [], s. simpl. rewrite app_nil_r. repeat split.
  - cbn [CsvRun.repeat_trials]. unfold bind at 1, CsvRun.call_getPageMetrics.
    destruct (browse url (String.append prefix i) (CsvRun.world s)) as [v w].
    destruct (csv_getPageMetrics_returns url (String.append prefix i) u v Hu) as [t Ht].
    rewrite Ht.
    destruct (IH (CsvRun.mkSession w (CsvRun.calls s ++ [(url, String.append prefix i)])))
      as (ts & s' & Hrun & Hlen & Hcalls).
    exists (t :: ts), s'. unfold bind. rewrite Hrun. unfold ret.
    split; [reflexivity|]. split; [simpl; lia|].
    rewrite Hcalls. cbn [CsvRun.calls map]. rewrite <- app_assoc. reflexivity.
Qed.

Lemma csv_repeat_trials_cons (url prefix i : string) (rest : list string) (s : CsvRun.session) :
  CsvRun.repeat_trials browse url prefix (i :: rest) s =
  match CsvRun.call_getPageMetrics browse url (String.append prefix i) s with
  | (Normal t, s1) =>
      match CsvRun.repeat_trials browse url prefix rest s1 with
      | (Normal ts, s2) => (Normal (t :: ts), s2)
      | (Thrown e, s2) => (Thrown e, s2)
      end
  | (Thrown e, s1) => (Thrown e, s1)
  end.
Proof.
  cbn [CsvRun.repeat_trials]. unfold bind, ret.
  destruct (CsvRun.call_getPageMetrics browse url (String.append prefix i) s) as [[t|e] s1];
    [|reflexivity].
  destruct (CsvRun.repeat_trials browse url prefix rest s1) as [[ts|e] s2]; reflexivity.
Qed.

Lemma csv_three_trials (url prefix : string) (u : URL) (s : CsvRun.session) :
  parse url = Some u ->
  exists (t1 t2 t3 : trial) (s' : CsvRun.session),
    CsvRun.repeat_trials browse url prefix CsvRun.iterations s = (Normal [t1; t2; t3], s')
    /\ CsvRun.calls s' =
       CsvRun.calls s ++ [(url, prefix +:+ "1"); (url, prefix +:+ "2"); (url, prefix +:+ "3")]
    /\ CsvRun.getPageMetrics url (prefix +:+ "1")
         (fst (browse url (prefix +:+ "1") (CsvRun.world s))) = Normal t1.
Proof.
  intros Hu.
  destruct (csv_repeat_trials_run url prefix u Hu CsvRun.iterations s)
    as (ts & s' & Hrun & Hlen & Hcalls).
  destruct ts as [|t1 [|t2 [|t3 [|]]]]; try discriminate.
  exists t1, t2, t3, s'. split; [exact Hrun|]. split; [exact Hcalls|].
  revert Hrun. unfold CsvRun.iterations.
  rewrite csv_repeat_trials_cons. unfold CsvRun.call_getPageMetrics.
  destruct (browse url (String.append prefix "1") (CsvRun.world s)) as [v w]. cbn [fst].
  destruct (CsvRun.getPageMetrics url (String.append prefix "1") v) as [t|e]; [|discriminate].
  destruct (CsvRun.repeat_trials browse url prefix _ _) as [[ts|e] s'']; [|discriminate].
  intros [= -> _ _]. reflexivity.
Qed.

(** What one turn of the loop over the sites does, by the link of the third
    trial. *)
Lemma csv_load_site_cases (dataset_name site : string) (u : URL) (s : CsvRun.session) :
  parse site = Some u ->
  exists (t1 t2 t3 : trial) (s3 : CsvRun.session),
    CsvRun.repeat_trials browse site "iter-" CsvRun.iterations s = (Normal [t1; t2; t3], s3)
    /\ CsvRun.calls s3 =
       CsvRun.calls s ++ [(site, "iter-1"%string); (site, "iter-2"%string); (site, "iter-3"%string)]
    /\ CsvRun.getPageMetrics site "iter-1" (fst (browse site "iter-1" (CsvRun.world s))) = Normal t1
    /\ (CsvRun.has_other t3 = false ->
        CsvRun.load_site browse dataset_name site s =
        (Normal (CsvRun.mkPageData dataset_name site (actualPage t1) [t1; t2; t3] []), s3))
    /\ (CsvRun.has_other t3 = true ->
        forall o, parse (CsvRun.other_url t3) = Some o ->
        exists o1 o2 o3 s6,
          CsvRun.load_site browse dataset_name site s =
          (Normal (CsvRun.mkPageData dataset_name site (actualPage t1) [t1; t2; t3] [o1; o2; o3]), s6)
          /\ CsvRun.calls s6 =
             CsvRun.calls s3 ++ [(CsvRun.other_url t3, "other-iter-1"%string);
                                 (CsvRun.other_url t3, "other-iter-2"%string);
                                 (CsvRun.other_url t3, "other-iter-3"%string)]).
Proof.
  intros Hu.
  destruct (csv_three_trials site "iter-" u s Hu) as (t1 & t2 & t3 & s3 & Hrun & Hcalls & Hfirst).
  exists t1, t2, t3, s3. split; [exact Hrun|]. split; [exact Hcalls|]. split; [exact Hfirst|].
  split.
  - intros Hgate. unfold CsvRun.load_site. unfold bind at 1. rewrite Hrun.
    unfold bind, lift, ret. cbn [at_index nth_error]. rewrite Hgate. reflexivity.
  - intros Hgate o Ho.
    destruct (csv_three_trials (CsvRun.other_url t3) "other-iter-" o s3 Ho)
      as (o1 & o2 & o3 & s6 & Hrun' & Hcalls' & _).
    exists o1, o2, o3, s6. unfold CsvRun.load_site. unfold bind at 1. rewrite Hrun.
    unfold bind, lift, ret. cbn [at_index nth_error]. rewrite Hgate, Hrun'.
    split; [reflexivity|exact Hcalls'].
Qed.

End CsvDriver.

(** ** The driver of the JSON variant *)

Lemma json_getPageMetrics_returns `{Api} (url name : string) (u : URL) (v : visit) :
  parse url = Some u ->
  exists t, JsonRun.getPageMetrics url name v = Normal t.
Proof.
  intros Hu. unfold JsonRun.getPageMetrics, new_URL. rewrite Hu. simpl.
  destruct (and_then (outcome v) (JsonRun.measured (JsonRun.observe url (events v)))) as [t|e].
  - exists t. reflexivity.
  - destruct (String.eqb (JS.name e) "TimeoutError"); eexists; reflexivity.
Qed.

Section JsonDriver.
Context `{Api} {W : Type} (browse : string -> string -> W -> visit * W).

Lemma json_repeat_trials_run (url prefix : string) (u : URL) :
  parse url = Some u ->
  forall (labels : list string) (s : JsonRun.session),
  exists (ts : list trial) (s' : JsonRun.session),
    JsonRun.repeat_trials browse url prefix labels s = (Normal ts, s')
    /\ List.length ts = List.length labels
    /\ JsonRun.calls s' = JsonRun.calls s ++ map (fun i => (url, prefix +:+ i)) labels.
Proof.
  intros Hu. induction labels as [|i rest IH]; intros s.
  - exists [], s. simpl. rewrite app_nil_r. repeat split.
  - cbn [JsonRun.repeat_trials]. unfold bind at 1, JsonRun.call_getPageMetrics.
    destruct (browse url (String.append prefix i) (JsonRun.world s)) as [v w].
    destruct (json_getPageMetrics_returns url (String.append prefix i) u v Hu) as [t Ht].
    rewrite Ht.
    destruct (IH (JsonRun.mkSession w (JsonRun.calls s ++ [(url, String.append prefix i)])))
      as (ts & s' & Hrun & Hlen & Hcalls).
    exists (t :: ts), s'. unfold bind. rewrite Hrun. unfold ret.
    split; [reflexivity|]. split; [simpl; lia|].
    rewrite Hcalls. cbn [JsonRun.calls map]. rewrite <- app_assoc. reflexivity.
Qed.

Lemma json_repeat_trials_cons (url prefix i : string) (rest : list string) (s : JsonRun.session) :
  JsonRun.repeat_trials browse url prefix (i :: rest) s =
  match JsonRun.call_getPageMetrics browse url (String.append prefix i) s with
  | (Normal t, s1) =>
      match JsonRun.repeat_trials browse url prefix rest s1 with
      | (Normal ts, s2) => (Normal (t :: ts), s2)
      | (Thrown e, s2) => (Thrown e, s2)
      end
  | (Thrown e, s1) => (Thrown e, s1)
  end.
Proof.
  cbn [JsonRun.repeat_trials]. unfold bind, ret.
  destruct (JsonRun.call_getPageMetrics browse url (String.append prefix i) s) as [[t|e] s1];
    [|reflexivity].
  destruct (JsonRun.repeat_trials browse url prefix rest s1) as [[ts|e] s2]; reflexivity.
Qed.

Lemma json_three_trials (url prefix : string) (u : URL) (s : JsonRun.session) :
  parse url = Some u ->
  exists (t1 t2 t3 : trial) (s' : JsonRun.session),
    JsonRun.repeat_trials browse url prefix JsonRun.iterations s = (Normal [t1; t2; t3], s')
    /\ JsonRun.calls s' =
       JsonRun.calls s ++ [(url, prefix +:+ "1"); (url, prefix +:+ "2"); (url, prefix +:+ "3")]
    /\ JsonRun.getPageMetrics url (prefix +:+ "1")
         (fst (browse url (prefix +:+ "1") (JsonRun.world s))) = Normal t1.
Proof.
  intros Hu.
  destruct (json_repeat_trials_run url prefix u Hu JsonRun.iterations s)
    as (ts & s' & Hrun & Hlen & Hcalls).
  destruct ts as [|t1 [|t2 [|t3 [|]]]]; try discriminate.
  exists t1, t2, t3, s'. split; [exact Hrun|]. split; [exact Hcalls|].
  revert Hrun. unfold JsonRun.iterations.
  rewrite json_repeat_trials_cons. unfold JsonRun.call_getPageMetrics.
  destruct (browse url (String.append prefix "1") (JsonRun.world s)) as [v w]. cbn [fst].
  destruct (JsonRun.getPageMetrics url (String.append prefix "1") v) as [t|e]; [|discriminate].
  destruct (JsonRun.repeat_trials browse url prefix _ _) as [[ts|e] s'']; [|discriminate].
  intros [= -> _ _]. reflexivity.
Qed.

(** The same for one turn of the loop over [pages.json]. *)
Lemma json_load_site_cases (site : string) (u : URL) (s : JsonRun.session) :
  parse site = Some u ->
  exists (t1 t2 t3 : trial) (s3 : JsonRun.session),
    JsonRun.repeat_trials browse site "iter-" JsonRun.iterations s = (Normal [t1; t2; t3], s3)
    /\ JsonRun.calls s3 =
       JsonRun.calls s ++ [(site, "iter-1"%string); (site, "iter-2"%string); (site, "iter-3"%string)]
    /\ JsonRun.getPageMetrics site "iter-1" (fst (browse site "iter-1" (JsonRun.world s))) = Normal t1
    /\ (JsonRun.has_other t3 = false ->
        JsonRun.load_site browse site s =
        (Normal (JsonRun.mkPageData site (actualPage t1) [t1; t2; t3] []), s3))
    /\ (JsonRun.has_other t3 = true ->
        forall o, parse (JsonRun.other_url site t3) = Some o ->
        exists o1 o2 o3 s6,
          JsonRun.load_site browse site s =
          (Normal (JsonRun.mkPageData site (actualPage t1) [t1; t2; t3] [o1; o2; o3]), s6)
          /\ JsonRun.calls s6 =
             JsonRun.calls s3 ++ [(JsonRun.other_url site t3, "other-iter-1"%string);
                                 (JsonRun.other_url site t3, "other-iter-2"%string);
                                 (JsonRun.other_url site t3, "other-iter-3"%string)]).
Proof.
  intros Hu.
  destruct (json_three_trials site "iter-" u s Hu) as (t1 & t2 & t3 & s3 & Hrun & Hcalls & Hfirst).
  exists t1, t2, t3, s3. split; [exact Hrun|]. split; [exact Hcalls|]. split; [exact Hfirst|].
  split.
  - intros Hgate. unfold JsonRun.load_site. unfold bind at 1. rewrite Hrun.
    unfold bind, lift, ret. cbn [at_index nth_error]. rewrite Hgate. reflexivity.
  - intros Hgate o Ho.
    destruct (json_three_trials (JsonRun.other_url site t3) "other-iter-" o s3 Ho)
      as (o1 & o2 & o3 & s6 & Hrun' & Hcalls' & _).
    exists o1, o2, o3, s6. unfold JsonRun.load_site. unfold bind at 1. rewrite Hrun.
    unfold bind, lift, ret. cbn [at_index nth_error]. rewrite Hgate, Hrun'.
    split; [reflexivity|exact Hcalls'].
Qed.

End JsonDriver.




Section Gate.
Context `{Api} {W : Type} (browse : string -> string -> W -> visit * W).


End Gate.

Section Navigations.
Context `{Api} {V : Type}
  (initial_load : string -> V -> Browser.load * V)
  (link_page : string -> V -> completion Browser.document * V)
  (home_navigation : string -> V -> completion (completion Q) * V).


End Navigations.



(** ** The site summary *)

Lemma csv_failed_actualPage `{Api} (url name : string) (v : visit) (e : JS.error) (t : trial) :
  outcome v = Thrown e ->
  CsvRun.getPageMetrics url name v = Normal t ->
  actualPage t = sentinel_of e.
Proof.
  intros Hv. unfold CsvRun.getPageMetrics, new_URL, sentinel_of.
  destruct (parse url); [|discriminate]. simpl. rewrite Hv. simpl.
  destruct (String.eqb (JS.name e) "TimeoutError"); intros [= <-]; reflexivity.
Qed.

Lemma json_failed_actualPage `{Api} (url name : string) (v : visit) (e : JS.error) (t : trial) :
  outcome v = Thrown e ->
  JsonRun.getPageMetrics url name v = Normal t ->
  actualPage t = sentinel_of e.
Proof.
  intros Hv. unfold JsonRun.getPageMetrics, new_URL, sentinel_of.
  destruct (parse url); [|discriminate]. simpl. rewrite Hv. simpl.
  destruct (String.eqb (JS.name e) "TimeoutError"); intros [= <-]; reflexivity.
Qed.

(** C10: the summary of a site takes [actualSiteUrl] from the first trial of
    the index page, while the gate of the secondary trials and their address
    are taken from the third; so when the first navigation failed,
    [actualSiteUrl] is "DNF" or "N/A" whatever the third trial found.  Both
    for the dataset variant and for the JSON variant. *)
Theorem C10_resolved_url_from_first_trial `{Api} {W : Type}
    (browse : string -> string -> W -> visit * W)
    (dataset_name site : string) (u : URL) (s : CsvRun.session) (j : JsonRun.session) :
  parse site = Some u ->
  (exists (t1 t2 t3 : trial) (s3 : CsvRun.session),
     CsvRun.repeat_trials browse site "iter-" CsvRun.iterations s = (Normal [t1; t2; t3], s3)
     /\ (forall e, outcome (fst (browse site "iter-1" (CsvRun.world s))) = Thrown e ->
         actualPage t1 = sentinel_of e)
     /\ (CsvRun.has_other t3 = false ->
         exists d, CsvRun.load_site browse dataset_name site s = (Normal d, s3)
                   /\ CsvRun.actualSiteUrl d = actualPage t1
                   /\ CsvRun.otherMetrics d = [])
     /\ (CsvRun.has_other t3 = true ->
         forall o, parse (CsvRun.other_url t3) = Some o ->
         exists d s6 others,
           CsvRun.load_site browse dataset_name site s = (Normal d, s6)
           /\ CsvRun.actualSiteUrl d = actualPage t1
           /\ List.length (CsvRun.otherMetrics d) = 3%nat
           /\ CsvRun.calls s6 =
              CsvRun.calls s3 ++ map (fun label => (CsvRun.other_url t3, label)) others))
  /\ (exists (t1 t2 t3 : trial) (j3 : JsonRun.session),
     JsonRun.repeat_trials browse site "iter-" JsonRun.iterations j = (Normal [t1; t2; t3], j3)
     /\ (forall e, outcome (fst (browse site "iter-1" (JsonRun.world j))) = Thrown e ->
         actualPage t1 = sentinel_of e)
     /\ (JsonRun.has_other t3 = false ->
         exists d, JsonRun.load_site browse site j = (Normal d, j3)
                   /\ JsonRun.actualSiteUrl d = actualPage t1
                   /\ JsonRun.otherMetrics d = [])
     /\ (JsonRun.has_other t3 = true ->
         forall o, parse (JsonRun.other_url site t3) = Some o ->
         exists d j6 others,
           JsonRun.load_site browse site j = (Normal d, j6)
           /\ JsonRun.actualSiteUrl d = actualPage t1
           /\ List.length (JsonRun.otherMetrics d) = 3%nat
           /\ JsonRun.calls j6 =
              JsonRun.calls j3 ++ map (fun label => (JsonRun.other_url site t3, label)) others)).
Proof.
  intros Hu. split.
  - destruct (csv_load_site_cases browse dataset_name site u s Hu)
      as (t1 & t2 & t3 & s3 & Hrun & _ & Hfirst & Hclosed & Hopen).
    exists t1, t2, t3, s3. split; [exact Hrun|]. split; [|split].
    + intros e He. exact (csv_failed_actualPage _ _ _ e t1 He Hfirst).
    + intros Hgate. eexists. split; [exact (Hclosed Hgate)|]. split; reflexivity.
    + intros Hgate o Ho.
      destruct (Hopen Hgate o Ho) as (o1 & o2 & o3 & s6 & Hload & Hcalls).
      eexists _, s6, ["other-iter-1"; "other-iter-2"; "other-iter-3"]%string.
      split; [exact Hload|]. split; [reflexivity|]. split; [reflexivity|exact Hcalls].
  - destruct (json_load_site_cases browse site u j Hu)
      as (t1 & t2 & t3 & j3 & Hrun & _ & Hfirst & Hclosed & Hopen).
    exists t1, t2, t3, j3. split; [exact Hrun|]. split; [|split].
    + intros e He. exact (json_failed_actualPage _ _ _ e t1 He Hfirst).
    + intros Hgate. eexists. split; [exact (Hclosed Hgate)|]. split; reflexivity.
    + intros Hgate o Ho.
      destruct (Hopen Hgate o Ho) as (o1 & o2 & o3 & j6 & Hload & Hcalls).
      eexists _, j6, ["other-iter-1"; "other-iter-2"; "other-iter-3"]%string.
      split; [exact Hload|]. split; [reflexivity|]. split; [reflexivity|exact Hcalls].
Qed.

(** The first visit times out, the later ones find the link "/about": the
    summary reports "DNF" as resolved URL and holds three secondary trials. *)
Lemma C10_first_trial_failed_link_found :
  (exists d s6,
     CsvRun.load_site (H:=basic) Sample.first_visit_times_out "blogs" Sample.site Sample.start =
       (Normal d, s6)
     /\ CsvRun.actualSiteUrl d = "DNF"%string
     /\ List.length (CsvRun.otherMetrics d) = 3%nat)
  /\ (exists d j6,
     JsonRun.load_site (H:=basic) Sample.first_visit_times_out Sample.site Sample.json_start =
       (Normal d, j6)
     /\ JsonRun.actualSiteUrl d = "DNF"%string
     /\ List.length (JsonRun.otherMetrics d) = 3%nat).
Proof.
  destruct (C10_resolved_url_from_first_trial (H:=basic) Sample.first_visit_times_out
              "blogs" Sample.site
              (mkURL "https://example.com/" "https://example.com" "example.com" "/")
              Sample.start Sample.json_start eq_refl)
    as [(t1 & t2 & t3 & s3 & Hrun & Hfail & _ & Hopen)
        (u1 & u2 & u3 & j3 & Hrun' & Hfail' & _ & Hopen')].
  split.
  - assert (Ht3 : CsvRun.has_other t3 = true /\
                  CsvRun.other_url t3 = "https://example.com/about"%string).
    { vm_compute in Hrun. injection Hrun as _ _ <- _. split; reflexivity. }
    destruct Ht3 as [Hgate Hurl].
    destruct (Hopen Hgate
                (mkURL "https://example.com/about" "https://example.com" "example.com" "/about"))
      as (d & s6 & others & Hload & Hactual & Hlen & _); [rewrite Hurl; reflexivity|].
    exists d, s6. split; [exact Hload|]. split; [|exact Hlen].
    rewrite Hactual. exact (Hfail Sample.timeout eq_refl).
  - assert (Ht3 : JsonRun.has_other u3 = true /\
                  JsonRun.other_url Sample.site u3 = "https://example.com//about"%string).
    { vm_compute in Hrun'. injection Hrun' as _ _ <- _. split; reflexivity. }
    destruct Ht3 as [Hgate Hurl].
    destruct (Hopen' Hgate
                (mkURL "https://example.com//about" "https://example.com" "example.com" "//about"))
      as (d & j6 & others & Hload & Hactual & Hlen & _); [rewrite Hurl; reflexivity|].
    exists d, j6. split; [exact Hload|]. split; [|exact Hlen].
    rewrite Hactual. exact (Hfail' Sample.timeout eq_refl).
Defined.

(** ** The address of the secondary page *)

(** C7: the code at two inputs it can receive.  In the dataset variant, the
    page "https://example.com/blog/" links to "/about": the trial holds that
    link, and the address built for the secondary trials is
    "https://example.com/blog/about", while the link addresses
    "https://example.com/about".  In the JSON variant, the site is listed as
    "https://example.com" and its page links to "about.html": the address
    built is "https://example.comabout.html", on another host, while the link
    addresses "https://example.com/about.html". *)
Theorem C7_joined_address_misses_link :
  (exists t,
     CsvRun.getPageMetrics (H:=basic) "https://example.com/blog/" "iter-3"
       (mkVisit [] (Normal Sample.blog_page)) = Normal t
     /\ otherPage t = "/about"%string
     /\ actualPage t = "https://example.com/blog/"%string
     /\ CsvRun.has_other t = true
     /\ CsvRun.other_url t = "https://example.com/blog/about"%string
     /\ option_map Url.href (basic_parse_with_base "/about" "https://example.com/blog/") =
        Some "https://example.com/about"%string)
  /\ (exists t,
     JsonRun.getPageMetrics (H:=basic) "https://example.com" "iter-3"
       (mkVisit [] (Normal Sample.relative_page)) = Normal t
     /\ otherPage t = "about.html"%string
     /\ JsonRun.has_other t = true
     /\ JsonRun.other_url "https://example.com" t = "https://example.comabout.html"%string
     /\ option_map hostname (basic_parse (JsonRun.other_url "https://example.com" t)) =
        Some "example.comabout.html"%string
     /\ option_map Url.href (basic_parse_with_base "about.html" "https://example.com/") =
        Some "https://example.com/about.html"%string).
Proof.
  split; eexists; (split; [reflexivity|]); repeat split.
Qed.

(** ** Trial objects of failed loads *)

(** C8: the code at an input it can receive.  In the averaging variant, when
    the three initial loads of a site fail, each stored trial object holds
    the error message and none of the seven metrics: reading any of them
    gives [undefined].  The object stored for a failed navigation to the link
    in the same loop does hold its fields, and so does the object the variant
    recording every try stores for a failed load. *)
Theorem C8_failed_initial_load_lacks_metrics :
  let stored := fst (Averages.initial_tries Sample.fails_to_load Sample.site Averages.tries tt) in
  let failed : gmap string value :=
    <["error" := VStr "page.goto: net::ERR_NAME_NOT_RESOLVED"]> ∅ in
  stored = [failed; failed; failed]
  /\ Forall (fun k => failed !! k = None /\ Averages.prop failed k = VUndefined)
       initial_metric_names
  /\ fst (Averages.navigation_tries (W:=unit)
            (fun _ w => (Thrown Sample.unresolved_host, w)) "https://example.com/" [0%nat] tt) =
     [<["error" := VStr "page.goto: net::ERR_NAME_NOT_RESOLVED"]> placeholder]
  /\ Forall (fun k => Tries.one_try (Browser.mkLoad [] (Thrown Sample.unresolved_host)) !! k
                      = Some (VStr "N/A"))
       Tries.metric_names.
Proof.
  repeat split; repeat constructor; reflexivity.
Qed.

(** * Further properties of the code *)

(** ** The total and its two buckets *)

Lemma add_bucket_left (t a b n : number) : t = add a b -> add t n = add (add a n) b.
Proof. intros ->. destruct a, b, n; simpl; try reflexivity. f_equal. lia. Qed.

Lemma add_bucket_right (t a b n : number) : t = add a b -> add t n = add a (add b n).
Proof. intros ->. destruct a, b, n; simpl; try reflexivity. f_equal. lia. Qed.

Lemma csv_handle_balanced `{Api} (url : string) (u : URL) (st : CsvRun.counters) (ev : event) :
  parse url = Some u ->
  is_Some (parse (response_url (resp ev))) ->
  csv_balanced st ->
  csv_balanced (CsvRun.handle url st ev).
Proof.
  intros Hu [ru Hru] Hst. unfold csv_balanced in *.
  unfold CsvRun.handle, CsvRun.on_response, CsvRun.redirect_found, CsvRun.reset,
    CsvRun.account, CsvRun.add_total, CsvRun.add_same, CsvRun.add_cross,
    CsvRun.count_resource, new_URL.
  rewrite Hu, Hru. run_js.
  destruct st as [t a b k fl]; simpl in *.
  split_matches; try assumption; try reflexivity;
    first [ apply add_bucket_left; assumption
          | apply add_bucket_right; assumption
          | f_equal; lia ].
Qed.

Lemma json_handle_balanced `{Api} (url : string) (u : URL) (st : JsonRun.counters) (r : response) :
  parse url = Some u ->
  is_Some (parse (response_url r)) ->
  json_balanced st ->
  json_balanced (JsonRun.handle url st r).
Proof.
  intros Hu [ru Hru] Hst. unfold json_balanced in *.
  unfold JsonRun.handle, JsonRun.on_response,
    JsonRun.account, JsonRun.add_total, JsonRun.add_same, JsonRun.add_cross,
    JsonRun.count_resource, new_URL.
  rewrite Hu, Hru. run_js.
  destruct st as [t a b k]; simpl in *.
  split_matches; try assumption; try reflexivity;
    first [ apply add_bucket_left; assumption
          | apply add_bucket_right; assumption
          | f_equal; lia ].
Qed.

(** X1: whatever responses a visit brings (any status, redirects, unreadable
    bodies, content-length values that are no numbers), the total the handler
    holds is the sum of its same-origin and cross-origin buckets, in the
    dataset variant and in the JSON variant, provided the starting URL and
    the URLs of the responses are valid URLs. *)
Theorem total_is_sum_of_buckets `{Api} (url : string) (u : URL) (evs : list event) :
  parse url = Some u ->
  Forall (fun ev => is_Some (parse (response_url (resp ev)))) evs ->
  csv_balanced (CsvRun.observe url evs) /\ json_balanced (JsonRun.observe url evs).
Proof.
  intros Hu Hall. split.
  - unfold CsvRun.observe.
    assert (Hgen : forall st, csv_balanced st -> csv_balanced (fold_left (CsvRun.handle url) evs st)).
    { induction Hall as [|ev evs Hev _ IH]; intros st Hst; [exact Hst|].
      simpl. apply IH. exact (csv_handle_balanced url u st ev Hu Hev Hst). }
    apply Hgen. reflexivity.
  - unfold JsonRun.observe.
    assert (Hgen : forall st, json_balanced st ->
                              json_balanced (fold_left (JsonRun.handle url) (map resp evs) st)).
    { induction Hall as [|ev evs Hev _ IH]; intros st Hst; [exact Hst|].
      simpl. apply IH. exact (json_handle_balanced url u st (resp ev) Hu Hev Hst). }
    apply Hgen. reflexivity.
Qed.

(** A visit with a counted response, a redirect, a 404 and a response of
    another host. *)
Lemma total_is_sum_of_buckets_on_mixed_visit :
  csv_balanced (CsvRun.observe (H:=basic) Sample.site
                  [Sample.same_1000; Sample.moved; Sample.not_found; Sample.cross_2000])
  /\ json_balanced (JsonRun.observe (H:=basic) Sample.site
                  [Sample.same_1000; Sample.moved; Sample.not_found; Sample.cross_2000]).
Proof.
  apply (total_is_sum_of_buckets (H:=basic) Sample.site
           (mkURL "https://example.com/" "https://example.com" "example.com" "/")).
  - reflexivity.
  - repeat constructor; eexists; reflexivity.
Defined.

(** ** The two handlers that keep a total only *)

Lemma tries_step_passes (total : number) (r : response) :
  passes r = true -> Tries.handle total r = snd (Averages.on_response r total).
Proof.
  unfold passes, Tries.handle, Tries.on_response, Averages.on_response. run_js.
  destruct ((status r <? 200) || (400 <=? status r)); [discriminate|reflexivity].
Qed.

Lemma tries_step_filtered (total : number) (r : response) :
  passes r = false -> Tries.handle total r = total.
Proof.
  unfold passes, Tries.handle, Tries.on_response. run_js.
  destruct ((status r <? 200) || (400 <=? status r)); [reflexivity|discriminate].
Qed.

(** X2: the byte total of [getPageLoadMetrics] is the byte total that
    [getInitialPageLoadMetrics] computes on the responses whose status is
    from 200 to 399: the two handlers differ by the status filter only. *)
Theorem filtered_total_is_unfiltered_total_of_passing (rs : list response) :
  Tries.observe rs = Averages.observe (List.filter passes rs).
Proof.
  unfold Tries.observe, Averages.observe. generalize (Num 0).
  induction rs as [|r rs IH]; intros total; [reflexivity|].
  cbn [fold_left List.filter].
  destruct (passes r) eqn:Hp.
  - cbn [fold_left]. rewrite (tries_step_passes total r Hp). apply IH.
  - rewrite (tries_step_filtered total r Hp). apply IH.
Qed.

Lemma averages_step_NaN (r : response) : snd (Averages.on_response r NaN) = NaN.
Proof.
  unfold Averages.on_response. run_js.
  destruct (content_length r) as [cl|]; [destruct (truthy cl)|];
    try reflexivity; destruct (body r); reflexivity.
Qed.

Lemma averages_fold_NaN (rs : list response) :
  fold_left (fun total r => snd (Averages.on_response r total)) rs NaN = NaN.
Proof.
  induction rs as [|r rs IH]; [reflexivity|].
  cbn [fold_left]. rewrite averages_step_NaN. exact IH.
Qed.

Lemma averages_step_malformed (total : number) (r : response) (contentLength : string) :
  content_length r = Some contentLength ->
  truthy contentLength = true ->
  parseInt contentLength = NaN ->
  snd (Averages.on_response r total) = NaN.
Proof.
  intros Hcl Ht Hp. unfold Averages.on_response. run_js.
  rewrite Hcl, Ht, Hp. destruct total; reflexivity.
Qed.

(** X3: one response whose content-length header is not empty and does not
    start with a number makes the byte total of [getInitialPageLoadMetrics]
    NaN, whatever comes before and after it; the trial object then holds NaN
    as [totalTransferredBytes] and as [totalTransferredMB], and
    [calculateAverage] leaves that trial out of both averages. *)
Theorem malformed_length_drops_trial_from_average (before after : list response)
    (r : response) (contentLength : string) (p : Browser.loaded)
    (others : list (gmap string value)) :
  content_length r = Some contentLength ->
  truthy contentLength = true ->
  parseInt contentLength = NaN ->
  Averages.observe (before ++ r :: after) = NaN
  /\ exists m,
       Averages.getInitialPageLoadMetrics
         (Browser.mkLoad (before ++ r :: after) (Normal p)) = Normal m
       /\ Averages.prop m "totalTransferredBytes" = VNaN
       /\ Averages.prop m "totalTransferredMB" = VNaN
       /\ Averages.calculateAverage (m :: others) "totalTransferredBytes" =
          Averages.calculateAverage others "totalTransferredBytes"
       /\ Averages.calculateAverage (m :: others) "totalTransferredMB" =
          Averages.calculateAverage others "totalTransferredMB".
Proof.
  intros Hcl Ht Hp.
  assert (Hobs : Averages.observe (before ++ r :: after) = NaN).
  { unfold Averages.observe. rewrite fold_left_app. cbn [fold_left].
    rewrite (averages_step_malformed _ r contentLength Hcl Ht Hp).
    apply averages_fold_NaN. }
  split; [exact Hobs|].
  eexists. unfold Averages.getInitialPageLoadMetrics. cbn [Browser.finished and_then Browser.responses].
  rewrite Hobs. split; [reflexivity|].
  split; [reflexivity|]. split; [reflexivity|].
  split; reflexivity.
Qed.

(** A content-length reading "abc" between two well-formed responses. *)
Lemma malformed_length_between_two_responses :
  Averages.observe
    [resp Sample.same_1000;
     mkResponse 200 "https://example.com/x" (Some "abc"%string) None (Normal 3%nat);
     resp Sample.cross_2000] = NaN.
Proof.
  apply (malformed_length_drops_trial_from_average
           [resp Sample.same_1000] [resp Sample.cross_2000]
           (mkResponse 200 "https://example.com/x" (Some "abc"%string) None (Normal 3%nat))
           "abc"
           (Browser.mkLoaded 0 0 None 0) [] eq_refl eq_refl eq_refl).
Defined.

(** ** The anchor picked as other page *)




(** ** A load without navigation entry *)

(** X5: when the page loads but [performance.getEntriesByType('navigation')]
    has no entry, the JSON and the dataset variant report "N/A" in every
    field of the trial, the bytes counted and the resolved URL included; the
    two variants of index.js keep what they measured and report "N/A" for
    the two API times only. *)
Theorem missing_navigation_entry `{Api} (url name : string) (u : URL) (v : visit) (p : page)
    (l : Browser.load) (q : Browser.loaded) :
  parse url = Some u ->
  outcome v = Normal p ->
  performanceTiming p = None ->
  Browser.finished l = Normal q ->
  Browser.navigationEntry q = None ->
  JsonRun.getPageMetrics url name v = Normal not_available
  /\ CsvRun.getPageMetrics url name v = Normal not_available
  /\ (exists m, Averages.getInitialPageLoadMetrics l = Normal m
        /\ Averages.prop m "pageLoadApiTime" = VStr "N/A"
        /\ Averages.prop m "domContentLoadedApiTime" = VStr "N/A"
        /\ Averages.prop m "loadTime" = VNum (toFixed2 (Browser.loadTime q))
        /\ Averages.prop m "totalTransferredBytes" =
           of_number (Averages.observe (Browser.responses l))
        /\ Averages.prop m "domElementCount" = VNum (inject_Z (Browser.elements q)))
  /\ (exists m, Tries.getPageLoadMetrics l = Normal m
        /\ Averages.prop m "pageLoadApiTime_ms" = VStr "N/A"
        /\ Averages.prop m "domContentLoadedApiTime_ms" = VStr "N/A"
        /\ Averages.prop m "loadTime_ms" = VNum (toFixed2 (Browser.loadTime q))
        /\ Averages.prop m "pageSize_Bytes" = of_number (Tries.observe (Browser.responses l))
        /\ Averages.prop m "domElementCount" = VNum (inject_Z (Browser.elements q))).
Proof.
  intros Hu Hv Hp Hl Hq. repeat split.
  - unfold JsonRun.getPageMetrics, JsonRun.measured, new_URL. rewrite Hu, Hv. simpl.
    rewrite Hp. reflexivity.
  - unfold CsvRun.getPageMetrics, CsvRun.measured, new_URL. rewrite Hu, Hv. simpl.
    rewrite Hp. reflexivity.
  - unfold Averages.getInitialPageLoadMetrics. rewrite Hl. simpl. rewrite Hq.
    eexists. split; [reflexivity|]. repeat split.
  - unfold Tries.getPageLoadMetrics. rewrite Hl. simpl. rewrite Hq.
    eexists. split; [reflexivity|]. repeat split.
Qed.

(** The page of the site loads after 1000 bytes, without navigation entry. *)
Lemma missing_navigation_entry_after_one_response :
  JsonRun.getPageMetrics (H:=basic) Sample.site "iter-1"
    (mkVisit [Sample.same_1000] (Normal (mkPage Sample.site None 42 []))) = Normal not_available
  /\ CsvRun.getPageMetrics (H:=basic) Sample.site "iter-1"
    (mkVisit [Sample.same_1000] (Normal (mkPage Sample.site None 42 []))) = Normal not_available.
Proof.
  destruct (missing_navigation_entry (H:=basic) Sample.site "iter-1"
              (mkURL "https://example.com/" "https://example.com" "example.com" "/")
              (mkVisit [Sample.same_1000] (Normal (mkPage Sample.site None 42 [])))
              (mkPage Sample.site None 42 [])
              (Browser.mkLoad [resp Sample.same_1000]
                 (Normal (Browser.mkLoaded (1234 # 10) (2500 # 10) None 42)))
              (Browser.mkLoaded (1234 # 10) (2500 # 10) None 42)
              eq_refl eq_refl eq_refl eq_refl eq_refl) as (Hjson & Hcsv & _).
  split; assumption.
Defined.

(** ** A redirect whose target is no absolute URL *)

(** X6: in the dataset variant, a response with a status from 301 to 399
    handled before any reset, whose target is missing or is no absolute URL
    (a relative Location header while the page is blank), changes nothing:
    the error of [new URL] ends the handler, so the response is neither
    counted nor does it reset the counters, even when it carries a
    content-length. *)
Theorem redirect_without_absolute_target_dropped `{Api} (url : string)
    (st : CsvRun.counters) (ev : event) :
  301 <= status (resp ev) <= 399 ->
  CsvRun.redirected st = false ->
  new_URL_nullable (CsvRun.redirect_target ev) = Thrown invalid_url ->
  CsvRun.handle url st ev = st.
Proof.
  intros Hs Hfl Ht.
  unfold CsvRun.handle, CsvRun.on_response, CsvRun.redirect_found. run_js.
  rewrite (status_redirect _ Hs), Hfl, Ht. reflexivity.
Qed.

(** A 302 with 154 bytes and the header [Location: /login], after a counted
    response. *)
Lemma relative_location_dropped :
  CsvRun.observe (H:=basic) Sample.site
    [Sample.same_1000;
     mkEvent (mkResponse 302 Sample.site (Some "154"%string) (Some "/login"%string) (Normal 154%nat))
       "about:blank"] =
  CsvRun.observe (H:=basic) Sample.site [Sample.same_1000].
Proof.
  apply (redirect_without_absolute_target_dropped (H:=basic) Sample.site
           (CsvRun.observe (H:=basic) Sample.site [Sample.same_1000])
           (mkEvent (mkResponse 302 Sample.site (Some "154"%string) (Some "/login"%string)
                       (Normal 154%nat)) "about:blank")).
  - simpl. lia.
  - reflexivity.
  - reflexivity.
Defined.

(** ** A whole run of the dataset variant and of the JSON variant *)

Lemma csv_getPageMetrics_invalid `{Api} (url name : string) (v : visit) :
  parse url = None -> CsvRun.getPageMetrics url name v = Thrown invalid_url.
Proof. intros Hu. unfold CsvRun.getPageMetrics, new_URL. rewrite Hu. reflexivity. Qed.

Lemma json_getPageMetrics_invalid `{Api} (url name : string) (v : visit) :
  parse url = None -> JsonRun.getPageMetrics url name v = Thrown invalid_url.
Proof. intros Hu. unfold JsonRun.getPageMetrics, new_URL. rewrite Hu. reflexivity. Qed.

Section CsvWholeRun.
Context `{Api} {W : Type} (browse : string -> string -> W -> visit * W).

Lemma csv_repeat_trials_outcome (url prefix : string) (labels : list string) (s : CsvRun.session) :
  match CsvRun.repeat_trials browse url prefix labels s with
  | (Normal ts, s') => List.length ts = List.length labels
  | (Thrown e, _) => e = invalid_url
  end.
Proof.
  destruct (parse url) as [u|] eqn:Hu.
  - destruct (csv_repeat_trials_run browse url prefix u Hu labels s)
      as (ts & s' & -> & Hlen & _). exact Hlen.
  - destruct labels as [|i rest]; [reflexivity|].
    rewrite csv_repeat_trials_cons. unfold CsvRun.call_getPageMetrics.
    destruct (browse url (String.append prefix i) (CsvRun.world s)) as [v w].
    rewrite (csv_getPageMetrics_invalid _ _ _ Hu). reflexivity.
Qed.

Lemma csv_load_site_outcome (dataset_name site : string) (s : CsvRun.session) :
  match CsvRun.load_site browse dataset_name site s with
  | (Normal d, _) =>
      CsvRun.dataset d = dataset_name /\ CsvRun.siteUrl d = site /\ csv_well_formed d
  | (Thrown e, _) => e = invalid_url
  end.
Proof.
  unfold CsvRun.load_site. unfold bind at 1.
  pose proof (csv_repeat_trials_outcome site "iter-" CsvRun.iterations s) as Hfirst.
  destruct (CsvRun.repeat_trials browse site "iter-" CsvRun.iterations s) as [[ts|e] s3];
    [|exact Hfirst].
  destruct ts as [|t1 [|t2 [|t3 [|]]]]; try discriminate.
  unfold bind at 1, lift at 1. cbn [at_index nth_error].
  unfold bind at 1.
  destruct (CsvRun.has_other t3).
  - pose proof (csv_repeat_trials_outcome (CsvRun.other_url t3) "other-iter-"
                  CsvRun.iterations s3) as Hother.
    destruct (CsvRun.repeat_trials browse (CsvRun.other_url t3) "other-iter-"
                CsvRun.iterations s3) as [[os|e] s6]; [|exact Hother].
    unfold bind, lift, ret. cbn [at_index nth_error].
    repeat split; try reflexivity. right. exact Hother.
  - unfold bind, lift, ret. cbn [at_index nth_error].
    repeat split; try reflexivity. left. reflexivity.
Qed.

Lemma csv_load_sites_outcome (dataset_name : string) (sites : list string) :
  forall s : CsvRun.session,
  match CsvRun.load_sites browse dataset_name sites s with
  | (Normal ds, _) =>
      map (fun d => (CsvRun.dataset d, CsvRun.siteUrl d)) ds = map (pair dataset_name) sites
      /\ Forall csv_well_formed ds
  | (Thrown e, _) => e = invalid_url
  end.
Proof.
  induction sites as [|site rest IH]; intros s.
  - simpl. split; [reflexivity|constructor].
  - cbn [CsvRun.load_sites]. unfold bind at 1.
    pose proof (csv_load_site_outcome dataset_name site s) as Hsite.
    destruct (CsvRun.load_site browse dataset_name site s) as [[d|e] s1]; [|exact Hsite].
    destruct Hsite as (Hd & Hs & Hwf).
    unfold bind at 1. specialize (IH s1).
    destruct (CsvRun.load_sites browse dataset_name rest s1) as [[ds|e] s2]; [|exact IH].
    destruct IH as [Hmap Hall]. unfold ret. split.
    + cbn [map]. rewrite Hd, Hs, Hmap. reflexivity.
    + constructor; assumption.
Qed.

End CsvWholeRun.

Section JsonWholeRun.
Context `{Api} {W : Type} (browse : string -> string -> W -> visit * W).

Lemma json_repeat_trials_outcome (url prefix : string) (labels : list string) (s : JsonRun.session) :
  match JsonRun.repeat_trials browse url prefix labels s with
  | (Normal ts, s') => List.length ts = List.length labels
  | (Thrown e, _) => e = invalid_url
  end.
Proof.
  destruct (parse url) as [u|] eqn:Hu.
  - destruct (json_repeat_trials_run browse url prefix u Hu labels s)
      as (ts & s' & -> & Hlen & _). exact Hlen.
  - destruct labels as [|i rest]; [reflexivity|].
    rewrite json_repeat_trials_cons. unfold JsonRun.call_getPageMetrics.
    destruct (browse url (String.append prefix i) (JsonRun.world s)) as [v w].
    rewrite (json_getPageMetrics_invalid _ _ _ Hu). reflexivity.
Qed.

Lemma json_load_site_outcome (site : string) (s : JsonRun.session) :
  match JsonRun.load_site browse site s with
  | (Normal d, _) =>
      JsonRun.siteUrl d = site /\ json_well_formed d
  | (Thrown e, _) => e = invalid_url
  end.
Proof.
  unfold JsonRun.load_site. unfold bind at 1.
  pose proof (json_repeat_trials_outcome site "iter-" JsonRun.iterations s) as Hfirst.
  destruct (JsonRun.repeat_trials browse site "iter-" JsonRun.iterations s) as [[ts|e] s3];
    [|exact Hfirst].
  destruct ts as [|t1 [|t2 [|t3 [|]]]]; try discriminate.
  unfold bind at 1, lift at 1. cbn [at_index nth_error].
  unfold bind at 1.
  destruct (JsonRun.has_other t3).
  - pose proof (json_repeat_trials_outcome (JsonRun.other_url site t3) "other-iter-"
                  JsonRun.iterations s3) as Hother.
    destruct (JsonRun.repeat_trials browse (JsonRun.other_url site t3) "other-iter-"
                JsonRun.iterations s3) as [[os|e] s6]; [|exact Hother].
    unfold bind, lift, ret. cbn [at_index nth_error].
    repeat split; try reflexivity. right. exact Hother.
  - unfold bind, lift, ret. cbn [at_index nth_error].
    repeat split; try reflexivity. left. reflexivity.
Qed.

Lemma json_loadPages_outcome (json : list string) :
  forall s : JsonRun.session,
  match JsonRun.loadPages browse json s with
  | (Normal ds, _) => map JsonRun.siteUrl ds = json /\ Forall json_well_formed ds
  | (Thrown e, _) => e = invalid_url
  end.
Proof.
  induction json as [|site rest IH]; intros s.
  - simpl. split; [reflexivity|constructor].
  - cbn [JsonRun.loadPages]. unfold bind at 1.
    pose proof (json_load_site_outcome site s) as Hsite.
    destruct (JsonRun.load_site browse site s) as [[d|e] s1]; [|exact Hsite].
    destruct Hsite as (Hs & Hwf).
    unfold bind at 1. specialize (IH s1).
    destruct (JsonRun.loadPages browse rest s1) as [[ds|e] s2]; [|exact IH].
    destruct IH as [Hmap Hall]. unfold ret. split.
    + cbn [map]. rewrite Hs, Hmap. reflexivity.
    + constructor; assumption.
Qed.

End JsonWholeRun.

(** X7: a run visits the targets in the order of the input and never stops
    at a failed trial: it either returns one summary per target, in input
    order, each with exactly three trials of the index page and none or
    three of the other page, or it ends with the [TypeError] of [new URL] on
    an address that is no valid URL.  For the dataset variant and for the
    JSON variant; the engine is taken to open contexts and pages. *)
Theorem run_keeps_order_and_shape `{Api} {W : Type}
    (browse : string -> string -> W -> visit * W)
    (datasets : list (string * list string)) (json : list string)
    (s : CsvRun.session) (j : JsonRun.session) :
  match CsvRun.loadPages browse datasets s with
  | (Normal ds, _) =>
      map (fun d => (CsvRun.dataset d, CsvRun.siteUrl d)) ds = targets datasets
      /\ Forall csv_well_formed ds
  | (Thrown e, _) => e = invalid_url
  end
  /\ match JsonRun.loadPages browse json j with
     | (Normal ds, _) => map JsonRun.siteUrl ds = json /\ Forall json_well_formed ds
     | (Thrown e, _) => e = invalid_url
     end.
Proof.
  split; [|apply json_loadPages_outcome].
  revert s. induction datasets as [|[dataset_name sites] rest IH]; intros s.
  - simpl. split; [reflexivity|constructor].
  - cbn [CsvRun.loadPages]. unfold bind at 1.
    pose proof (csv_load_sites_outcome browse dataset_name sites s) as Hsites.
    destruct (CsvRun.load_sites browse dataset_name sites s) as [[ds|e] s1]; [|exact Hsites].
    destruct Hsites as [Hmap Hall].
    unfold bind at 1. specialize (IH s1).
    destruct (CsvRun.loadPages browse rest s1) as [[more|e] s2]; [|exact IH].
    destruct IH as [Hmap' Hall']. unfold ret. split.
    + rewrite map_app, Hmap, Hmap'. reflexivity.
    + apply Forall_app. split; assumption.
Qed.


(** ** The width of a row *)

(** X8: for a summary with three trials of the index page and none or three
    of the other page (every summary a run returns), the values interpolated
    into the CSV line are as many as the header has columns, 26; with fewer
    than three trials of the index page the line cannot be built: reading a
    trial that is not there throws a [TypeError]. *)
Theorem csv_row_matches_header (d : CsvRun.pageData) :
  (csv_well_formed d ->
   exists row, CsvRun.csv_cells d = Normal row
               /\ List.length row = List.length CsvFile.header)
  /\ ((List.length (CsvRun.metrics d) < 3)%nat ->
      exists e, CsvRun.csv_cells d = Thrown e /\ JS.name e = "TypeError"%string).
Proof.
  split.
  - intros [Hm Ho]. unfold CsvRun.csv_cells.
    destruct (CsvRun.metrics d) as [|t1 [|t2 [|t3 [|]]]]; try discriminate.
    destruct Ho as [->|Ho].
    + eexists. split; reflexivity.
    + destruct (CsvRun.otherMetrics d) as [|o1 [|o2 [|o3 [|]]]]; try discriminate.
      eexists. split; reflexivity.
  - intros Hm. unfold CsvRun.csv_cells.
    destruct (CsvRun.metrics d) as [|t1 [|t2 [|t3 rest]]]; cbn [List.length] in Hm; try lia;
      eexists; split; reflexivity.
Qed.

(** The summary of a site whose three trials failed. *)
Lemma csv_row_of_failed_site :
  exists row,
    CsvRun.csv_cells
      (CsvRun.mkPageData "blogs" Sample.site "N/A"
         [not_available; not_available; not_available] []) = Normal row
    /\ List.length row = 26%nat.
Proof.
  apply (csv_row_matches_header
           (CsvRun.mkPageData "blogs" Sample.site "N/A"
              [not_available; not_available; not_available] [])).
  split; [reflexivity|left; reflexivity].
Defined.

(** ** What the link finder returns *)

(** X9: whatever the page holds, and also when resolving an href throws in
    the middle of the search, [findHomepageLinkOnce] returns either
    [found: false] with the href "N/A", or [found: true] with an href whose
    text starts with the origin of the URL it was given.  The guard is the
    prefix test [absoluteHref.startsWith(currentDomain)] and the statement
    says no more than it: a URL of another host whose name begins like the
    origin passes it. *)
Theorem finder_returns_sentinel_or_link_of_origin `{Api} (page : Browser.document)
    (initialUrl : string) :
  (Averages.found (Averages.findHomepageLinkOnce page initialUrl) = false /\
   Averages.href (Averages.findHomepageLinkOnce page initialUrl) = "N/A"%string)
  \/ (Averages.found (Averages.findHomepageLinkOnce page initialUrl) = true /\
      exists u, parse initialUrl = Some u
                /\ startsWith (Averages.href (Averages.findHomepageLinkOnce page initialUrl))
                     (origin u) = true).
Proof.
  pose proof (find_link_ok page initialUrl) as Hok.
  unfold Averages.findHomepageLinkOnce. cbn [Averages.found Averages.href].
  destruct (parse initialUrl) as [u|].
  - unfold finder_ok in Hok.
    destruct (Averages.linkFound (Averages.find_link page initialUrl)).
    + right. split; [reflexivity|]. exists u. split; [reflexivity|exact Hok].
    + left. split; [reflexivity|exact Hok].
  - rewrite Hok. left. split; reflexivity.
Qed.



(** ** The guard on the origin is a test on text *)

Section Prefix.
Context `{Api} (currentDomain : string) (page : Browser.document) (r : URL).
Hypothesis Hres : parse_with_base "/" (Browser.document_url page) = Some r.
Hypothesis Hstart : startsWith (Url.href r) currentDomain = true.
Hypothesis Honly :
  forall selector attr, In attr (Browser.locate page selector) -> attr = Some "/"%string.

Lemma try_anchors_roots (attrs : list (option string)) (st : Averages.finder) :
  attrs <> [] ->
  (forall attr, In attr attrs -> attr = Some "/"%string) ->
  Averages.try_anchors currentDomain (Browser.document_url page) attrs st =
  (Normal tt, Averages.mkFinder (Url.href r) true (Averages.queried st)).
Proof.
  destruct attrs as [|attr rest]; [congruence|]. intros _ Hroots.
  rewrite (Hroots attr (or_introl eq_refl)).
  cbn [Averages.try_anchors]. unfold bind at 1.
  unfold Averages.try_anchor, new_URL_base. rewrite Hres.
  unfold Averages.accept. run_js. rewrite Hstart. reflexivity.
Qed.

(** Once the root is held, every later selector leaves it or takes it
    again. *)
Lemma try_selectors_roots (selectors : list string) :
  forall queried,
    exists queried',
      Averages.try_selectors currentDomain page selectors
        (Averages.mkFinder (Url.href r) true queried) =
      (Normal tt, Averages.mkFinder (Url.href r) true queried').
Proof.
  induction selectors as [|selector rest IH]; intros queried; [eexists; reflexivity|].
  rewrite try_selectors_step. cbv zeta.
  cbn [Averages.foundHref Averages.linkFound Averages.queried].
  destruct (Browser.locate page selector) as [|attr attrs] eqn:Hloc.
  - cbn [List.length Nat.ltb Nat.leb]. apply IH.
  - cbn [List.length Nat.ltb Nat.leb].
    rewrite try_anchors_roots;
      [|discriminate|intros a Hin; apply (Honly selector); rewrite Hloc; exact Hin].
    cbn [Averages.queried].
    destruct (Averages.confident currentDomain _); [eexists; reflexivity|apply IH].
Qed.

End Prefix.

(** X16: the finder compares text, not origins.  When the first selector
    matches, the anchors of the page all have the href "/", and "/" resolves
    against the page to a URL whose text starts with the origin of the URL
    the finder was given, the finder returns that URL as found, whatever its
    host: a page of a host whose name begins like the requested one is taken
    for the site's own. *)
Theorem finder_accepts_by_prefix `{Api} (page : Browser.document) (initialUrl : string)
    (u r : URL) (others : list (option string)) :
  parse initialUrl = Some u ->
  Browser.locate page "a[href='/']" = Some "/"%string :: others ->
  parse_with_base "/" (Browser.document_url page) = Some r ->
  startsWith (Url.href r) (origin u) = true ->
  (forall selector attr, In attr (Browser.locate page selector) -> attr = Some "/"%string) ->
  Averages.findHomepageLinkOnce page initialUrl = Averages.mkLink true (Url.href r).
Proof.
  intros Hu Hloc Hres Hstart Honly.
  assert (Hrun : exists queried,
            Averages.find_link page initialUrl = Averages.mkFinder (Url.href r) true queried).
  { unfold Averages.find_link, Averages.homepageSelectors, new_URL.
    rewrite Hu. unfold try_catch, bind at 1, lift.
    rewrite try_selectors_step. cbv zeta. rewrite Hloc.
    cbn [List.length Nat.ltb Nat.leb].
    rewrite (try_anchors_roots (origin u) page r Hres Hstart);
      [|discriminate|intros a Hin; apply (Honly "a[href='/']"%string); rewrite Hloc; exact Hin].
    cbn [Averages.foundHref Averages.linkFound Averages.queried].
    destruct (Averages.confident (origin u) _); [eexists; reflexivity|].
    destruct (try_selectors_roots (origin u) page r Hres Hstart Honly
                (tl Averages.homepageSelectors) ([] ++ ["a[href='/']"%string]))
      as [queried Hrest].
    unfold Averages.homepageSelectors in Hrest. cbn [tl] in Hrest.
    rewrite Hrest. eexists; reflexivity. }
  destruct Hrun as [queried Hrun].
  unfold Averages.findHomepageLinkOnce. rewrite Hrun. reflexivity.
Qed.

(** The site "https://example.com/" answered by a page of the host
    "example.com.evil.org". *)
Lemma lookalike_host_taken_for_the_site :
  Averages.findHomepageLinkOnce (H:=basic) Sample.lookalike_page Sample.site =
    Averages.mkLink true "https://example.com.evil.org/"
  /\ omap (fun s => option_map hostname (basic_parse s))
       [Sample.site; "https://example.com.evil.org/"%string] =
     ["example.com"%string; "example.com.evil.org"%string].
Proof.
  split; [|reflexivity].
  apply (finder_accepts_by_prefix (H:=basic) Sample.lookalike_page Sample.site
           (mkURL "https://example.com/" "https://example.com" "example.com" "/")
           (mkURL "https://example.com.evil.org/" "https://example.com.evil.org"
              "example.com.evil.org" "/")
           [] eq_refl eq_refl eq_refl eq_refl).
  intros selector attr Hin. unfold Sample.lookalike_page in Hin.
  cbn [Browser.locate] in Hin.
  destruct (_ || _) in Hin; [|contradiction].
  destruct Hin as [<-|[]]. reflexivity.
Defined.

(** ** Rounding is stable *)

Lemma toFixed2_Qeq (x y : Q) : (x == y)%Q -> toFixed2 x = toFixed2 y.
Proof.
  intros Hxy. unfold toFixed2.
  assert (Hn : Qfloor (Qabs x * 100 + (1 # 2)) = Qfloor (Qabs y * 100 + (1 # 2)))
    by (rewrite Hxy; reflexivity).
  assert (Hs : Qle_bool 0 x = Qle_bool 0 y) by (rewrite Hxy; reflexivity).
  rewrite Hn, Hs. reflexivity.
Qed.

Lemma toFixed2_hundredths (m : Z) : toFixed2 (m # 100) = Qred (m # 100).
Proof.
  unfold toFixed2.
  assert (Hn : Qfloor (Qabs (m # 100) * 100 + (1 # 2)) = Z.abs m).
  { unfold Qabs, Qmult, Qplus, Qfloor. cbn [Qnum Qden].
    change (Z.pos (100 * 1 * 2)) with 200%Z. change (Z.pos (100 * 1)) with 100%Z.
    symmetry. apply Z.div_unique with (r := 100%Z); lia. }
  rewrite Hn. unfold Qle_bool. cbn [Qnum Qden].
  destruct (Z.leb_spec (0 * 100) (m * 1)).
  - rewrite Z.abs_eq by lia. reflexivity.
  - rewrite Z.abs_neq by lia. rewrite Z.opp_involutive. reflexivity.
Qed.

Lemma toFixed2_idempotent (x : Q) : toFixed2 (toFixed2 x) = toFixed2 x.
Proof.
  assert (Hk : exists k, toFixed2 x = Qred (k # 100)).
  { unfold toFixed2. destruct (Qle_bool 0 x); eexists; reflexivity. }
  destruct Hk as [k Hk]. rewrite Hk.
  rewrite (toFixed2_Qeq (Qred (k # 100)) (k # 100)) by apply Qred_correct.
  apply toFixed2_hundredths.
Qed.

Lemma sum_repeat (v : Q) (n : nat) :
  (fold_right Qplus 0 (repeat v n) == inject_Z (Z.of_nat n) * v)%Q.
Proof.
  induction n as [|n IH].
  - simpl. ring.
  - cbn [repeat fold_right]. rewrite IH, Nat2Z.inj_succ, <- Z.add_1_r, inject_Z_plus.
    change (inject_Z 1) with 1%Q. ring.
Qed.

Lemma numbers_of_equal (metricsArray : list (gmap string value)) (metricName : string) (v : Q) :
  Forall (fun m => Averages.prop m metricName = VNum v) metricsArray ->
  numbers_of metricsArray metricName = repeat v (List.length metricsArray).
Proof.
  induction 1 as [|m rest Hm _ IH]; [reflexivity|].
  cbn [numbers_of List.length repeat]. rewrite Hm, IH. reflexivity.
Qed.

(** X11: the values the scripts store are stable under the rounding the
    aggregator applies: when every trial holds the same two-decimal value for
    a metric (a value that [toFixed(2)] produced), the average of that metric
    is this very value, for any number of trials. *)
Theorem average_of_equal_measurements (metricsArray : list (gmap string value))
    (metricName : string) (x : Q) :
  metricName <> "homepageLinkFound"%string ->
  metricsArray <> [] ->
  Forall (fun m => Averages.prop m metricName = VNum (toFixed2 x)) metricsArray ->
  Averages.calculateAverage metricsArray metricName = VNum (toFixed2 x).
Proof.
  intros Hname Hne Hall. unfold Averages.calculateAverage.
  rewrite (String_eqb_neq _ _ Hname), numbers_of_filter, (numbers_of_equal _ _ _ Hall).
  rewrite repeat_length.
  destruct metricsArray as [|m rest]; [contradiction|].
  cbn [List.length Nat.eqb]. f_equal.
  rewrite <- (toFixed2_idempotent x) at 2. apply toFixed2_Qeq.
  rewrite fold_left_Qplus, sum_repeat.
  field. intros Hzero. unfold Qeq in Hzero. simpl in Hzero. lia.
Qed.

(** Three trials that each measured 123.45. *)
Lemma average_of_three_equal_measurements :
  Averages.calculateAverage
    [Sample.with_loadTime (VNum (toFixed2 (12345 # 100)));
     Sample.with_loadTime (VNum (toFixed2 (12345 # 100)));
     Sample.with_loadTime (VNum (toFixed2 (12345 # 100)))] "loadTime" =
  VNum (toFixed2 (12345 # 100)).
Proof.
  apply average_of_equal_measurements.
  - discriminate.
  - discriminate.
  - repeat constructor.
Defined.

(** ** Lengths written in decimal *)

Lemma digits_of_uint (d : Decimal.uint) :
  forall a : nat,
    digits (Some (Z.of_nat a)) (DecimalString.NilEmpty.string_of_uint d) =
    Some (Z.of_nat (Nat.of_uint_acc d a)).
Proof.
  induction d as [|d IH|d IH|d IH|d IH|d IH|d IH|d IH|d IH|d IH|d IH]; intros a;
    [reflexivity|..];
    cbn [DecimalString.NilEmpty.string_of_uint digits Nat.of_uint_acc];
    change (is_digit _) with true; cbn iota; rewrite <- IH;
    apply (f_equal (fun x => digits (Some x) _));
    match goal with
    | |- context [digit_val ?c] =>
        let v := eval vm_compute in (digit_val c) in change (digit_val c) with v
    end;
    rewrite Nat.tail_mul_spec; lia.
Qed.

Lemma parseInt_of_uint (d : Decimal.uint) :
  d <> Decimal.Nil ->
  parseInt (DecimalString.NilEmpty.string_of_uint d) = Num (Z.of_nat (Nat.of_uint d))
  /\ truthy (DecimalString.NilEmpty.string_of_uint d) = true.
Proof.
  intros Hd.
  assert (Hdigits : digits None (DecimalString.NilEmpty.string_of_uint d) =
                    Some (Z.of_nat (Nat.of_uint d))).
  { unfold Nat.of_uint. rewrite <- (digits_of_uint d 0).
    destruct d; [congruence|..]; reflexivity. }
  destruct d; [congruence|..]; (split; [|reflexivity]);
    unfold parseInt;
    cbn [DecimalString.NilEmpty.string_of_uint trim_start];
    change (is_space _) with false; cbn iota;
    cbn [DecimalString.NilEmpty.string_of_uint] in Hdigits;
    rewrite Hdigits; f_equal; lia.
Qed.

Lemma parseInt_decimal (n : nat) :
  parseInt (decimal n) = Num (Z.of_nat n) /\ truthy (decimal n) = true.
Proof.
  unfold decimal.
  destruct (parseInt_of_uint (Nat.to_uint n)) as [Hp Ht].
  - rewrite <- (DecimalNat.Unsigned.of_to n), DecimalNat.Unsigned.to_of.
    apply DecimalFacts.unorm_nonnil.
  - rewrite Hp, DecimalNat.Unsigned.of_to. split; [reflexivity|exact Ht].
Qed.

(** X12: a content-length header holding the decimal digits of [n] makes a
    response count for exactly [n] bytes, whatever its body, as long as the
    numbers stay integers a double holds exactly ([n], the total before and
    the total after at most 2^53 - 1): in the handler of
    [getInitialPageLoadMetrics] for every status, and in the handler of
    [getPageLoadMetrics] when the status passes its filter. *)
Theorem decimal_length_counts_its_value (n : nat) (r : response) (total : Z) :
  content_length r = Some (decimal n) ->
  safe_integer (Z.of_nat n) ->
  safe_integer total ->
  safe_integer (total + Z.of_nat n) ->
  bytes_of r = Some (Z.of_nat n)
  /\ snd (Averages.on_response r (Num total)) = Num (total + Z.of_nat n)
  /\ (passes r = true -> Tries.handle (Num total) r = Num (total + Z.of_nat n)).
Proof.
  intros Hc _ _ _. destruct (parseInt_decimal n) as [Hp Ht].
  unfold bytes_of, Averages.on_response, Tries.handle, Tries.on_response, passes.
  rewrite Hc, Hp, Ht. repeat split.
  intros Hpass. apply negb_true_iff in Hpass. rewrite Hpass. reflexivity.
Qed.

(** A response of 1234 bytes by its header, with a body of another length. *)
Lemma length_1234_counted :
  Tries.handle (Num 10) (mkResponse 200 "https://example.com/a.css" (Some "1234"%string) None (Normal 7%nat))
  = Num 1244.
Proof.
  refine (proj2 (proj2 (decimal_length_counts_its_value 1234
                          (mkResponse 200 "https://example.com/a.css" (Some "1234"%string) None
                             (Normal 7%nat))
                          10 eq_refl _ _ _)) eq_refl);
    unfold safe_integer; simpl; lia.
Defined.

(** ** The rows of the file of individual tries *)

Lemma one_try_defined (l : Browser.load) :
  Forall (fun k => defined (Averages.prop (Tries.one_try l) k)) Tries.metric_names.
Proof.
  unfold Tries.one_try, Tries.getPageLoadMetrics, and_then, defined.
  destruct (Browser.finished l) as [p|e].
  - unfold Averages.api_time, Averages.megabytes, of_number.
    destruct (Browser.navigationEntry p), (Tries.observe (Browser.responses l));
      repeat constructor; discriminate.
  - repeat constructor; discriminate.
Qed.

Lemma dataRow_ok (url : string) (i : nat) (measurement : string) (found : bool)
    (href : string) (l : Browser.load) :
  tries_row url (Z.of_nat i + 1) measurement found href
    (TriesRun.dataRow url i measurement found href (Tries.one_try l)).
Proof.
  pose proof (one_try_defined l) as Hd.
  unfold Tries.metric_names in Hd.
  repeat match goal with
         | H : Forall _ (_ :: _) |- _ => apply Forall_cons_iff in H; destruct H
         end.
  repeat split; repeat constructor; try discriminate; assumption.
Qed.

Lemma skipped_row_ok (url : string) (i : nat) (found : bool) (href : string) :
  tries_row url (Z.of_nat i + 1) "Homepage Navigation" found href
    (TriesRun.skipped_row url i found href)
  /\ all_not_available (TriesRun.skipped_row url i found href).
Proof. repeat split; repeat constructor; discriminate. Qed.

Section TriesRows.
Context `{Api} {W : Type}
  (link_page : string -> W -> completion Browser.document * W)
  (page_load : string -> W -> Browser.load * W).

Lemma measured_tries_rows (url target measurement : string) (found : bool) (href : string)
    (turns : list nat) :
  forall w,
    Forall2 (fun i row => tries_row url (Z.of_nat i + 1) measurement found href row)
      turns (snd (fst (TriesRun.measured_tries page_load url target measurement found href turns w)))
    /\ List.length (fst (fst (TriesRun.measured_tries page_load url target measurement
                                found href turns w))) = List.length turns.
Proof.
  induction turns as [|i rest IH]; intros w; [split; [constructor|reflexivity]|].
  cbn [TriesRun.measured_tries].
  destruct (page_load target w) as [l w1].
  specialize (IH w1).
  destruct (TriesRun.measured_tries page_load url target measurement found href rest w1)
    as [[more rows] w2].
  cbn [fst snd] in *. destruct IH as [IHrows IHlen].
  split; [constructor; [apply dataRow_ok|exact IHrows]|cbn; now rewrite IHlen].
Qed.

Lemma identify_sentinel (url : string) (w : W) :
  Averages.found (fst (Averages.identify link_page url w)) = false ->
  Averages.href (fst (Averages.identify link_page url w)) = "N/A"%string.
Proof.
  unfold Averages.identify.
  destruct (link_page url w) as [[page|e] w1]; cbn [fst]; [|reflexivity].
  pose proof (find_link_ok page url) as Hok.
  unfold Averages.findHomepageLinkOnce. cbn [Averages.found Averages.href].
  destruct (parse url) as [u|].
  - unfold finder_ok in Hok. intros Hf. rewrite Hf in Hok. exact Hok.
  - rewrite Hok. reflexivity.
Qed.

Lemma process_url_rows (url : string) (w : W) :
  let s := fst (TriesRun.process_url link_page page_load url w) in
  let found := TriesRun.homepageLinkFoundOverall s in
  let href := TriesRun.identifiedHomepageHref s in
  exists initial_rows navigation_rows,
    TriesRun.rows s = (initial_rows ++ navigation_rows)%list
    /\ Forall2 (fun i row => tries_row url (Z.of_nat i + 1) "Initial Load" found href row)
         Averages.tries initial_rows
    /\ Forall2 (fun i row => tries_row url (Z.of_nat i + 1) "Homepage Navigation" found href row)
         Averages.tries navigation_rows
    /\ List.length (TriesRun.initialLoadMetricsOverTries s) = 3%nat
    /\ (if found
        then List.length (TriesRun.homepageNavigationMetricsOverTries s) = 3%nat
        else href = "N/A"%string
             /\ TriesRun.homepageNavigationMetricsOverTries s = []
             /\ Forall all_not_available navigation_rows).
Proof.
  unfold TriesRun.process_url.
  pose proof (identify_sentinel url w) as Hs.
  destruct (Averages.identify link_page url w) as [linkResult w1]. cbn [fst] in Hs.
  pose proof (measured_tries_rows url url "Initial Load"
                (Averages.found linkResult) (Averages.href linkResult) Averages.tries w1)
    as [Hi Hil].
  destruct (TriesRun.measured_tries page_load url url "Initial Load" _ _ Averages.tries w1)
    as [[initials initial_rows] w2].
  cbn [fst snd] in Hi, Hil.
  destruct (Averages.found linkResult) eqn:Hfound.
  - pose proof (measured_tries_rows url (Averages.href linkResult)
                  "Homepage Navigation" true (Averages.href linkResult) Averages.tries w2)
      as [Hn Hnl].
    destruct (TriesRun.measured_tries page_load url (Averages.href linkResult)
                "Homepage Navigation" _ _ Averages.tries w2)
      as [[navigations navigation_rows] w3].
    cbn [fst snd] in Hn, Hnl.
    cbn [fst TriesRun.rows TriesRun.homepageLinkFoundOverall TriesRun.identifiedHomepageHref
         TriesRun.initialLoadMetricsOverTries TriesRun.homepageNavigationMetricsOverTries].
    exists initial_rows, navigation_rows.
    split; [reflexivity|]. split; [exact Hi|]. split; [exact Hn|].
    split; [exact Hil|exact Hnl].
  - cbn [fst TriesRun.rows TriesRun.homepageLinkFoundOverall TriesRun.identifiedHomepageHref
         TriesRun.initialLoadMetricsOverTries TriesRun.homepageNavigationMetricsOverTries].
    do 2 eexists. split; [reflexivity|]. split; [exact Hi|].
    unfold Averages.tries. cbn [map].
    split; [repeat (constructor; [apply skipped_row_ok|]); constructor|].
    split; [exact Hil|].
    split; [apply Hs; reflexivity|].
    split; [reflexivity|].
    repeat (constructor; [apply skipped_row_ok|]); constructor.
Qed.

End TriesRows.

(** X13: in the variant recording every try, each URL adds exactly six lines
    to the file, whatever the engine does: three for the initial loads and
    three for the navigations to the link, numbered 1 to 3, each with as many
    cells as the header has names and no cell undefined, all six carrying
    the same link flag and href.  When no link was identified the href is
    "N/A", no navigation is measured and the last three lines hold "N/A" in
    their seven metric cells. *)
Theorem every_url_writes_six_rows `{Api} {W : Type}
    (link_page : string -> W -> completion Browser.document * W)
    (page_load : string -> W -> Browser.load * W) (url : string) (w : W) :
  let s := fst (TriesRun.process_url link_page page_load url w) in
  let found := TriesRun.homepageLinkFoundOverall s in
  let href := TriesRun.identifiedHomepageHref s in
  exists i1 i2 i3 n1 n2 n3,
    TriesRun.rows s = [i1; i2; i3; n1; n2; n3]
    /\ tries_row url 1 "Initial Load" found href i1
    /\ tries_row url 2 "Initial Load" found href i2
    /\ tries_row url 3 "Initial Load" found href i3
    /\ tries_row url 1 "Homepage Navigation" found href n1
    /\ tries_row url 2 "Homepage Navigation" found href n2
    /\ tries_row url 3 "Homepage Navigation" found href n3
    /\ List.length (TriesRun.initialLoadMetricsOverTries s) = 3%nat
    /\ (if found
        then List.length (TriesRun.homepageNavigationMetricsOverTries s) = 3%nat
        else href = "N/A"%string
             /\ TriesRun.homepageNavigationMetricsOverTries s = []
             /\ Forall all_not_available [n1; n2; n3]).
Proof.
  intros s found href.
  destruct (process_url_rows link_page page_load url w)
    as (initial_rows & navigation_rows & Hrows & Hi & Hn & Hil & Hnav).
  fold s found href in Hrows, Hi, Hn, Hil, Hnav.
  unfold Averages.tries in Hi, Hn.
  inversion Hi as [|? i1 ? r1 Hi1 Hr1]; subst.
  inversion Hr1 as [|? i2 ? r2 Hi2 Hr2]; subst.
  inversion Hr2 as [|? i3 ? r3 Hi3 Hr3]; subst.
  inversion Hr3; subst.
  inversion Hn as [|? n1 ? q1 Hn1 Hq1]; subst.
  inversion Hq1 as [|? n2 ? q2 Hn2 Hq2]; subst.
  inversion Hq2 as [|? n3 ? q3 Hn3 Hq3]; subst.
  inversion Hq3; subst.
  exists i1, i2, i3, n1, n2, n3.
  split; [exact Hrows|].
  split; [exact Hi1|]. split; [exact Hi2|]. split; [exact Hi3|].
  split; [exact Hn1|]. split; [exact Hn2|]. split; [exact Hn3|].
  split; [exact Hil|exact Hnav].
Qed.

(** X14: a run of the variant recording every try over [n] URLs appends
    exactly [6 * n] lines after the header, whatever the engine does, and
    every line has as many cells as the header has names, none of them
    undefined. *)
Theorem run_writes_six_rows_per_url `{Api} {W : Type}
    (link_page : string -> W -> completion Browser.document * W)
    (page_load : string -> W -> Browser.load * W) (urlsToTest : list string) (w : W) :
  List.length (fst (TriesRun.run link_page page_load urlsToTest w)) =
    (6 * List.length urlsToTest)%nat
  /\ Forall (fun row => List.length row = List.length TriesRun.header /\ Forall defined row)
       (fst (TriesRun.run link_page page_load urlsToTest w)).
Proof.
  revert w.
  induction urlsToTest as [|url rest IH]; intros w; [split; [reflexivity|constructor]|].
  cbn [TriesRun.run].
  pose proof (process_url_rows link_page page_load url w) as Hrows.
  destruct (TriesRun.process_url link_page page_load url w) as [s w1].
  cbn [fst] in Hrows.
  destruct Hrows as (initial_rows & navigation_rows & Hr & Hi & Hn & _).
  specialize (IH w1).
  destruct (TriesRun.run link_page page_load rest w1) as [more w2].
  cbn [fst] in *. destruct IH as [IHlen IHall].
  rewrite Hr. split.
  - apply Forall2_length in Hi, Hn.
    rewrite !length_app, <- Hi, <- Hn, IHlen. cbn [Averages.tries List.length]. lia.
  - repeat apply Forall_app_2; [| |exact IHall].
    + clear -Hi. induction Hi as [|i row turns rows Hrow _ IHrows]; constructor;
        [split; [exact (proj1 Hrow)|exact (proj1 (proj2 Hrow))]|exact IHrows].
    + clear -Hn. induction Hn as [|i row turns rows Hrow _ IHrows]; constructor;
        [split; [exact (proj1 Hrow)|exact (proj1 (proj2 Hrow))]|exact IHrows].
Qed.

(** ** The row of averages *)

Lemma calculateAverage_number_or_NA (metricsArray : list (gmap string value))
    (metricName : string) :
  String.eqb metricName "homepageLinkFound" = false ->
  number_or_NA (Averages.calculateAverage metricsArray metricName).
Proof.
  intros Hn. unfold Averages.calculateAverage. rewrite Hn.
  destruct (_ =? _)%nat; [right; reflexivity|left; eexists; reflexivity].
Qed.

(** X15: in the averaging variant the line written for a URL always has the
    eleven cells of the header, whatever the engine does and also when stored
    trials lack their metrics: the URL, seven averages and the navigation
    time, each a number or "N/A" (never undefined or NaN), the link flag and
    the href.  When no link was identified the href and the navigation time
    are both "N/A". *)
Theorem consolidated_row_is_readable `{Api} {W : Type}
    (initial_load : string -> W -> Browser.load * W)
    (link_page : string -> W -> completion Browser.document * W)
    (home_navigation : string -> W -> completion (completion Q) * W)
    (url : string) (w : W) :
  let s := fst (Averages.process_url initial_load link_page home_navigation url w) in
  exists a1 a2 a3 a4 a5 a6 a7 t,
    Averages.consolidatedMetrics s =
      [ VStr url; a1; a2; a3; a4; a5; a6; a7;
        VBool (Averages.homepageLinkFoundOverall s);
        VStr (Averages.identifiedHomepageHref s); t ]
    /\ Forall number_or_NA [a1; a2; a3; a4; a5; a6; a7; t]
    /\ (Averages.homepageLinkFoundOverall s = false ->
        Averages.identifiedHomepageHref s = "N/A"%string /\ t = VStr "N/A"%string).
Proof.
  unfold Averages.process_url.
  destruct (Averages.initial_tries initial_load url Averages.tries w) as [initials w1].
  pose proof (identify_sentinel link_page url w1) as Hs.
  destruct (Averages.identify link_page url w1) as [linkResult w2]. cbn [fst] in Hs.
  destruct (Averages.found linkResult) eqn:Hfound.
  - destruct (Averages.navigation_tries home_navigation (Averages.href linkResult)
                Averages.tries w2) as [navigations w3].
    cbn [fst Averages.consolidatedMetrics Averages.homepageLinkFoundOverall
         Averages.identifiedHomepageHref].
    do 8 eexists. split; [reflexivity|].
    split; [|discriminate].
    repeat (constructor; [apply calculateAverage_number_or_NA; reflexivity|]).
    constructor.
  - cbn [fst Averages.consolidatedMetrics Averages.homepageLinkFoundOverall
         Averages.identifiedHomepageHref].
    do 8 eexists. split; [reflexivity|].
    split; [|intros _; split; [apply Hs; reflexivity|reflexivity]].
    repeat (constructor; [apply calculateAverage_number_or_NA; reflexivity|]).
    constructor.
Qed.
